(** * wdtCmdLine: the command-line front end of WDT

    A shallow embedding of [src/wdtCmdLine.cpp]: the manifest reader
    [readManifest] and the control flow of [main], with the calls into the
    WDT library (Receiver, Sender, TransferLogManager, WdtTransferRequest)
    taken as collaborators of the run. *)

From Stdlib Require Import ZArith String Ascii List Bool Lia.
Import ListNotations.

Local Open Scope string_scope.
Local Open Scope Z_scope.

(* ================================================================== *)
(** ** Error codes *)

(** Modelled from the spec: ErrorCodes.h is not under src/.  Section 6 of
    the specification gives the closed enumeration in this order, [OK]
    being 0; an unscoped C++ enum numbers its members consecutively. *)
Inductive ErrorCode : Set :=
| OK
| ERROR
| ABORT
| CONN_ERROR
| SOCKET_READ_ERROR
| SOCKET_WRITE_ERROR
| FILE_READ_ERROR
| FILE_WRITE_ERROR
| PROTOCOL_ERROR
| VERSION_MISMATCH
| FEWER_PORTS
| CHECKSUM_MISMATCH
| ABORTED_BY_APPLICATION.

(** The implicit conversion of the enum to [int] ([return retCode] in
    [main], and the operands of [==] and [!=]). *)
Definition errorCodeValue (e : ErrorCode) : Z :=
  match e with
  | OK => 0
  | ERROR => 1
  | ABORT => 2
  | CONN_ERROR => 3
  | SOCKET_READ_ERROR => 4
  | SOCKET_WRITE_ERROR => 5
  | FILE_READ_ERROR => 6
  | FILE_WRITE_ERROR => 7
  | PROTOCOL_ERROR => 8
  | VERSION_MISMATCH => 9
  | FEWER_PORTS => 10
  | CHECKSUM_MISMATCH => 11
  | ABORTED_BY_APPLICATION => 12
  end.

(** [a == b] on error codes. *)
Definition errorCode_eqb (a b : ErrorCode) : bool :=
  errorCodeValue a =? errorCodeValue b.

(* ================================================================== *)
(** ** Strings: std::string::empty, std::getline, folly::split *)

Definition empty (s : string) : bool :=
  match s with
  | EmptyString => true
  | String _ _ => false
  end.

Definition tab : ascii := Ascii.ascii_of_nat 9.
Definition newline : ascii := Ascii.ascii_of_nat 10.

(** One call of [std::getline(fin, line)] on the unread part of the
    stream: [None] when no character could be extracted (the stream
    turns false and the loop ends), otherwise the line without its
    terminating newline, and what is left of the stream. *)
Fixpoint getline (fin : string) : option (string * string) :=
  match fin with
  | EmptyString => None
  | String c rest =>
      if Ascii.eqb c newline then Some (EmptyString, rest)
      else match getline rest with
           | Some (line, rest') => Some (String c line, rest')
           | None => Some (String c EmptyString, EmptyString)
           end
  end.

(** The successive values of [line] in [while (std::getline(fin, line))]. *)
Fixpoint getlines (fin : string) : list string :=
  match fin with
  | EmptyString => []
  | String c rest =>
      if Ascii.eqb c newline then EmptyString :: getlines rest
      else match getlines rest with
           | line :: more => String c line :: more
           | [] => [String c EmptyString]
           end
  end.

(** The pieces of [s] between the occurrences of [delim]: what
    [folly::split] produces when it keeps empty tokens. *)
Fixpoint split_pieces (delim : ascii) (s : string) : list string :=
  match s with
  | EmptyString => [EmptyString]
  | String c rest =>
      if Ascii.eqb c delim then EmptyString :: split_pieces delim rest
      else match split_pieces delim rest with
           | piece :: more => String c piece :: more
           | [] => [String c EmptyString]
           end
  end.

(** [folly::split(delim, s, out, ignoreEmpty)]. *)
Definition folly_split (delim : ascii) (s : string) (ignoreEmpty : bool)
  : list string :=
  if ignoreEmpty
  then filter (fun piece => negb (empty piece)) (split_pieces delim s)
  else split_pieces delim s.

(** The inverse of splitting: the pieces written with [delim] between them. *)
Fixpoint join (delim : ascii) (pieces : list string) : string :=
  match pieces with
  | [] => EmptyString
  | [p] => p
  | p :: more => p ++ String delim (join delim more)
  end.

(** [c] does not occur in [s]. *)
Fixpoint free_of (c : ascii) (s : string) : bool :=
  match s with
  | EmptyString => true
  | String a rest => negb (Ascii.eqb a c) && free_of c rest
  end.

(** The tab-separated fields of a manifest line, empty ones included. *)
Definition tab_fields (line : string) : list string := split_pieces tab line.

(* ================================================================== *)
(** ** Results of running a piece of the program *)

(** How control leaves a statement: it completes with a value, [main]
    returns, [LOG(FATAL)] aborts the process, an exception escapes, or
    the statement is still executing when the observation ends. *)
Inductive Result (A : Type) : Type :=
| Val (a : A)
| Return (code : Z)
| Fatal (message : string)
| Thrown
| Running.

Arguments Val {A} a.
Arguments Return {A} code.
Arguments Fatal {A} message.
Arguments Thrown {A}.
Arguments Running {A}.

(* ================================================================== *)
(** ** The transfer request *)

(** Modelled from the spec: WdtTransferRequest is declared outside src/.
    The fields are those [main] and [readManifest] touch, with the ports
    of section 3 ("start port and count", "negotiated ports"). *)
Record WdtTransferRequest : Type := mkRequest {
  hostName : string;
  transferId : string;
  protocolVersion : Z;
  ports : list Z;
  directory : string;
  fileInfo : list (string * Z);
  errorCode : ErrorCode
}.

Definition set_hostName (h : string) (r : WdtTransferRequest) :=
  mkRequest h (transferId r) (protocolVersion r) (ports r) (directory r)
            (fileInfo r) (errorCode r).
Definition set_transferId (t : string) (r : WdtTransferRequest) :=
  mkRequest (hostName r) t (protocolVersion r) (ports r) (directory r)
            (fileInfo r) (errorCode r).
Definition set_protocolVersion (v : Z) (r : WdtTransferRequest) :=
  mkRequest (hostName r) (transferId r) v (ports r) (directory r)
            (fileInfo r) (errorCode r).
Definition set_directory (d : string) (r : WdtTransferRequest) :=
  mkRequest (hostName r) (transferId r) (protocolVersion r) (ports r) d
            (fileInfo r) (errorCode r).
Definition set_fileInfo (f : list (string * Z)) (r : WdtTransferRequest) :=
  mkRequest (hostName r) (transferId r) (protocolVersion r) (ports r)
            (directory r) f (errorCode r).

(* ================================================================== *)
(** ** readManifest *)

Section Manifest.

(** [folly::to<int64_t>]: [None] when the conversion throws. *)
Variable to_int64 : string -> option Z.

(** The body of the loop of [readManifest] for one line (lines
    122-128): the entry that [emplace_back] appends. *)
Definition manifestEntry (line : string) : Result (string * Z) :=
  let fields := folly_split tab line true in
  if (Nat.eqb (length fields) 0) || (Nat.ltb 2 (length fields))
  then Fatal ("Invalid input manifest: " ++ line)
  else
    match (if Nat.ltb 1 (length fields)
           then to_int64 (nth 1 fields EmptyString)
           else Some (-1)) with
    | Some filesize => Val (nth 0 fields EmptyString, filesize)
    | None => Thrown
    end.

Fixpoint readManifest_loop (lines : list string) (req : WdtTransferRequest)
  : Result WdtTransferRequest :=
  match lines with
  | [] => Val req
  | line :: more =>
      match manifestEntry line with
      | Val entry =>
          readManifest_loop more
            (set_fileInfo (fileInfo req ++ [entry])%list req)
      | Return code => Return code
      | Fatal message => Fatal message
      | Thrown => Thrown
      | Running => Running
      end
  end.

(** [readManifest(fin, req)] (lines 119-130), [fin] being the unread
    content of the stream. *)
Definition readManifest (fin : string) (req : WdtTransferRequest)
  : Result WdtTransferRequest :=
  readManifest_loop (getlines fin) req.

End Manifest.

(** A decimal reader standing for [folly::to<int64_t>] in the examples:
    an optional minus sign and at least one digit, within 64 bits. *)
Definition digit_of (c : ascii) : option Z :=
  let n := Z.of_nat (Ascii.nat_of_ascii c) in
  if (48 <=? n) && (n <=? 57) then Some (n - 48) else None.

Fixpoint digits_value (acc : Z) (s : string) : option Z :=
  match s with
  | EmptyString => Some acc
  | String c rest =>
      match digit_of c with
      | Some d => digits_value (10 * acc + d) rest
      | None => None
      end
  end.

Definition decimal_int64 (s : string) : option Z :=
  let in_range (v : Z) :=
    if (- 2 ^ 63 <=? v) && (v <? 2 ^ 63) then Some v else None in
  match s with
  | EmptyString => None
  | String c rest =>
      if Ascii.eqb c "-"%char
      then match rest with
           | EmptyString => None
           | _ => match digits_value 0 rest with
                  | Some v => in_range (- v)
                  | None => None
                  end
           end
      else match digits_value 0 s with
           | Some v => in_range v
           | None => None
           end
  end.

(* ================================================================== *)
(** ** Command-line flags and options *)

(** The flags this file defines, as [google::ParseCommandLineFlags] left
    them ([DEFINE_bool], [DEFINE_string], [DEFINE_int32]). *)
Record Flags : Type := mkFlags {
  FLAGS_run_as_daemon : bool;
  FLAGS_directory : string;
  FLAGS_manifest : string;
  FLAGS_destination : string;
  FLAGS_parse_transfer_log : bool;
  FLAGS_transfer_id : string;
  FLAGS_protocol_version : Z;
  FLAGS_connection_url : string;
  FLAGS_abort_after_seconds : Z;
  FLAGS_recovery_id : string;
  FLAGS_treat_fewer_port_as_error : bool;
  FLAGS_print_options : bool;
  FLAGS_exit_on_bad_flags : bool
}.

(** The defaults given in the [DEFINE_*] lines. *)
Definition default_flags : Flags :=
  mkFlags false "." EmptyString EmptyString false EmptyString 0 EmptyString
          0 EmptyString false false true.

(** Modelled from the spec: WdtOptions is declared outside src/; these
    are the three tunables [main] reads or writes. *)
Record WdtOptions : Type := mkOptions {
  start_port : Z;
  num_ports : Z;
  enable_download_resumption : bool
}.

Definition set_enable_download_resumption (b : bool) (o : WdtOptions) :=
  mkOptions (start_port o) (num_ports o) b.

(* ================================================================== *)
(** ** Signals *)

Inductive Signal : Set := SIGINT | SIGTERM | SIGPIPE.

(** What a signal does to the process: the default action, nothing, or a
    handler; the one handler the specification speaks of sets the abort
    flag. *)
Inductive Disposition : Set := SIG_DFL | SIG_IGN | AbortHandler.

Definition Signal_eqb (a b : Signal) : bool :=
  match a, b with
  | SIGINT, SIGINT | SIGTERM, SIGTERM | SIGPIPE, SIGPIPE => true
  | _, _ => false
  end.

(* ================================================================== *)
(** ** Receiver and Sender objects *)

(** Modelled from the spec: Receiver and Sender are declared outside
    src/.  An object holds the request it was built from (section 3:
    "mutated by init() to fill in negotiated ports/ID"), the recovery id
    and whether an abort checker was installed on it. *)
Record Receiver : Type := mkReceiver {
  rcv_request : WdtTransferRequest;
  rcv_recoveryId : string;
  rcv_abortChecker : bool
}.

Record Sender : Type := mkSender {
  snd_request : WdtTransferRequest;
  snd_abortChecker : bool
}.

(** The part of the [WdtBase] interface [setUpAbort] uses. *)
Class WdtBase (T : Type) : Type := {
  setAbortChecker : T -> T
}.

#[export] Instance Receiver_WdtBase : WdtBase Receiver := {
  setAbortChecker r := mkReceiver (rcv_request r) (rcv_recoveryId r) true
}.

#[export] Instance Sender_WdtBase : WdtBase Sender := {
  setAbortChecker s := mkSender (snd_request s) true
}.

Definition setRecoveryId (id : string) (r : Receiver) : Receiver :=
  mkReceiver (rcv_request r) id (rcv_abortChecker r).

(* ================================================================== *)
(** ** Observable events of a run *)

Inductive ManifestSource : Type := FromStdin | FromFile (path : string).

(** The calls [main] makes that reach outside of it, in program order. *)
Inductive Event : Type :=
| EvSignal (s : Signal) (d : Disposition)
| EvInitializeFromFlags
| EvPrintOptions
| EvSetRootDir (dir : string)
| EvOpenLog
| EvParseAndPrint (success : bool)
| EvCloseLog
| EvParseUrl (url : string)
| EvReceiverInit (req augmentedReq : WdtTransferRequest)
| EvCout (text : string)
| EvEndl
| EvFlush
| EvSetAbortChecker (abortSeconds : Z)
| EvSetRecoveryId (id : string)
| EvTransferAsync (r : Receiver)
| EvFinish (r : Receiver) (summary : ErrorCode)
| EvRunForever (r : Receiver)
| EvDaemonTransfer (round : nat)
| EvReadManifest (src : ManifestSource)
| EvSenderInit (req processedRequest : WdtTransferRequest)
| EvSenderTransfer (s : Sender) (summary : ErrorCode)
| EvCancelAbort.

(* ================================================================== *)
(** ** The process and its collaborators *)

(** The process-wide state [main] changes. *)
Record Process : Type := mkProcess {
  disposition : Signal -> Disposition;
  options : WdtOptions;
  trace : list Event
}.

(** Everything a run depends on besides the flags: the library calls
    whose code is outside src/, the input streams and the timing of the
    abort timer. *)
Record World : Type := mkWorld {
  (** signal dispositions the process starts with *)
  inherited_disposition : Signal -> Disposition;
  (** the options [FLAGS::initializeFromFlags] installs *)
  flag_options : WdtOptions;
  (** [WdtTransferRequest(startPort, numPorts, directory)] *)
  newRequest : Z -> Z -> string -> WdtTransferRequest;
  (** [WdtTransferRequest(url)] *)
  requestFromUrl : string -> WdtTransferRequest;
  (** [WdtTransferRequest::generateUrl()] *)
  generateUrl : WdtTransferRequest -> string;
  (** [Receiver::init()] *)
  receiver_init : WdtTransferRequest -> WdtTransferRequest;
  (** summary error code of the report of [Receiver::finish()] *)
  receiver_summary : Receiver -> WdtOptions -> ErrorCode;
  (** [Sender::init()] *)
  sender_init : WdtTransferRequest -> WdtTransferRequest;
  (** summary error code of the report of [Sender::transfer()] *)
  sender_summary : Sender -> WdtOptions -> ErrorCode;
  (** [TransferLogManager::parseAndPrint()] for the log under a directory *)
  log_parses : string -> bool;
  (** what can be read from [std::cin] *)
  cin : string;
  (** content of a file, [None] when it cannot be opened *)
  file : string -> option string;
  (** [folly::to<int64_t>] *)
  to_int64 : string -> option Z;
  (** what [Receiver::runForever()] returns, should it return *)
  runForever_result : ErrorCode;
  (** the daemon round during which the abort timer, once armed, fires *)
  abort_round : nat
}.

(* ================================================================== *)
(** ** Statements: state passing with early exit *)

Definition M (A : Type) : Type := Process -> Process * Result A.

Definition ret {A : Type} (a : A) : M A := fun p => (p, Val a).

Definition bind {A B : Type} (m : M A) (k : A -> M B) : M B :=
  fun p =>
    let '(p', r) := m p in
    match r with
    | Val a => k a p'
    | Return code => (p', Return code)
    | Fatal message => (p', Fatal message)
    | Thrown => (p', Thrown)
    | Running => (p', Running)
    end.

Declare Scope wdt_scope.
Delimit Scope wdt_scope with wdt.
Notation "x <- m ;; k" := (bind m (fun x => k))
  (at level 61, m at next level, right associativity) : wdt_scope.
Notation "m ;; k" := (bind m (fun _ => k))
  (at level 61, right associativity) : wdt_scope.
Local Open Scope wdt_scope.

(** [return code;] inside [main]. *)
Definition return_ {A : Type} (code : Z) : M A := fun p => (p, Return code).

(** Lifting of a pure result. *)
Definition lift {A : Type} (r : Result A) : M A := fun p => (p, r).

Definition emit (e : Event) : M unit :=
  fun p => (mkProcess (disposition p) (options p) (trace p ++ [e]), Val tt).

Definition emit_all (es : list Event) : M unit :=
  fun p => (mkProcess (disposition p) (options p) (trace p ++ es), Val tt).

(** [signal(s, d)]. *)
Definition signal (s : Signal) (d : Disposition) : M unit :=
  fun p =>
    (mkProcess (fun s' => if Signal_eqb s' s then d else disposition p s')
               (options p) (trace p ++ [EvSignal s d]),
     Val tt).

(** [WdtOptions::get()]. *)
Definition getOptions : M WdtOptions := fun p => (p, Val (options p)).

(** Assignment through [WdtOptions::getMutable()]. *)
Definition putOptions (o : WdtOptions) : M unit :=
  fun p => (mkProcess (disposition p) o (trace p), Val tt).

(** How a run of the program ends, as seen from outside. *)
Inductive Outcome : Type :=
| Exited (code : Z)
| Aborted (message : string)
| Uncaught
| StillRunning.

(* ================================================================== *)
(** ** The daemon loop *)

(** The abort checker of a receiver says yes: it was installed and the
    timer behind it has fired. *)
Definition abort_fired (armed : bool) (abortAt round : nat) : bool :=
  armed && Nat.leb abortAt round.

(** Modelled from the spec: Receiver::runForever is declared outside
    src/.  Section 4.4: "After one transfer completes the receiver resets
    per-transfer state and re-binds, running forever until the abort
    checker fires".  The specification does not say what the call
    returns once the loop has ended: that is [final].  [fuel] bounds the
    number of rounds observed; [Running] says the loop has not ended
    within it. *)
Fixpoint runForever_rounds (final : ErrorCode) (armed : bool) (abortAt : nat)
    (fuel round : nat) : list Event * Result ErrorCode :=
  match fuel with
  | O => ([], Running)
  | S fuel' =>
      if abort_fired armed abortAt round
      then ([], Val final)
      else
        let '(served, r) :=
          runForever_rounds final armed abortAt fuel' (S round) in
        (EvDaemonTransfer round :: served, r)
  end.

(* ================================================================== *)
(** ** main *)

Section Main.

Variable F : Flags.
Variable W : World.

(** [setUpAbort(senderOrReceiver)] (lines 87-109): nothing unless
    abort_after_seconds is positive; otherwise an abort checker is
    installed on the object and the timer thread is started. *)
Definition setUpAbort {T : Type} `{WdtBase T} (senderOrReceiver : T) : M T :=
  let abortSeconds := FLAGS_abort_after_seconds F in
  if abortSeconds <=? 0 then ret senderOrReceiver
  else
    emit (EvSetAbortChecker abortSeconds) ;;
    ret (setAbortChecker senderOrReceiver).

(** [cancelAbort()] (lines 111-117). *)
Definition cancelAbort : M unit := emit EvCancelAbort.

(** [receiver.runForever()] (line 232), with the rounds of the loop it
    runs. *)
Definition runForever (fuel : nat) (receiver : Receiver) : M ErrorCode :=
  emit (EvRunForever receiver) ;;
  let '(served, r) :=
    runForever_rounds (runForever_result W) (rcv_abortChecker receiver)
                      (abort_round W) fuel 0 in
  emit_all served ;;
  lift r.

(** The log-parsing mode (lines 173-183). *)
Definition parseTransferLog : M unit :=
  o <- getOptions ;;
  putOptions (set_enable_download_resumption true o) ;;
  emit (EvSetRootDir (FLAGS_directory F)) ;;
  emit EvOpenLog ;;
  let success := log_parses W (FLAGS_directory F) in
  emit (EvParseAndPrint success) ;;
  emit EvCloseLog ;;
  return_ (errorCodeValue (if success then OK else ERROR)).

(** Construction of the request from the flags or from the URL, and
    the protocol version flag (lines 186-205). *)
Definition makeRequest : M WdtTransferRequest :=
  o <- getOptions ;;
  req <- (if empty (FLAGS_connection_url F) then
            let req := newRequest W (start_port o) (num_ports o)
                                  (FLAGS_directory F) in
            let req := set_hostName (FLAGS_destination F) req in
            let req := set_transferId (FLAGS_transfer_id F) req in
            ret req
          else
            emit (EvParseUrl (FLAGS_connection_url F)) ;;
            let req := requestFromUrl W (FLAGS_connection_url F) in
            if negb (errorCode_eqb (errorCode req) OK)
            then return_ (errorCodeValue ERROR)
            else ret (set_directory (FLAGS_directory F) req)) ;;
  if 0 <? FLAGS_protocol_version F
  then ret (set_protocolVersion (FLAGS_protocol_version F) req)
  else ret req.

(** The receiver branch (lines 208-234). *)
Definition receiverMode (fuel : nat) (req : WdtTransferRequest)
  : M ErrorCode :=
  let augmentedReq := receiver_init W req in
  let receiver := mkReceiver augmentedReq EmptyString false in
  emit (EvReceiverInit req augmentedReq) ;;
  (if FLAGS_treat_fewer_port_as_error F
      && errorCode_eqb (errorCode augmentedReq) FEWER_PORTS
   then return_ (errorCodeValue FEWER_PORTS) else ret tt) ;;
  (if errorCode_eqb (errorCode augmentedReq) ERROR
   then return_ (errorCodeValue ERROR) else ret tt) ;;
  emit (EvCout (generateUrl W augmentedReq)) ;;
  emit EvEndl ;;
  emit EvFlush ;;
  receiver <- setUpAbort receiver ;;
  receiver <- (if negb (empty (FLAGS_recovery_id F)) then
                 o <- getOptions ;;
                 putOptions (set_enable_download_resumption true o) ;;
                 emit (EvSetRecoveryId (FLAGS_recovery_id F)) ;;
                 ret (setRecoveryId (FLAGS_recovery_id F) receiver)
               else ret receiver) ;;
  if negb (FLAGS_run_as_daemon F) then
    emit (EvTransferAsync receiver) ;;
    o <- getOptions ;;
    let summary := receiver_summary W receiver o in
    emit (EvFinish receiver summary) ;;
    ret summary
  else
    runForever fuel receiver.

(** The sender branch (lines 236-256); ADDITIONAL_SENDER_SETUP is
    empty in this build. *)
Definition senderMode (req : WdtTransferRequest) : M ErrorCode :=
  req <- (if negb (empty (FLAGS_manifest F)) then
            if String.eqb (FLAGS_manifest F) "-" then
              emit (EvReadManifest FromStdin) ;;
              lift (readManifest (to_int64 W) (cin W) req)
            else
              emit (EvReadManifest (FromFile (FLAGS_manifest F))) ;;
              lift (readManifest (to_int64 W)
                      (match file W (FLAGS_manifest F) with
                       | Some content => content
                       | None => EmptyString
                       end) req)
          else ret req) ;;
  let sender := mkSender req false in
  emit (EvSenderInit req (sender_init W req)) ;;
  sender <- setUpAbort sender ;;
  o <- getOptions ;;
  let summary := sender_summary W sender o in
  emit (EvSenderTransfer sender summary) ;;
  ret summary.

(** The body of [main] from [signal(SIGPIPE, SIG_IGN)] on (lines
    162-261), that is once the command line has been parsed.  Log lines
    are not part of the model. *)
Definition main_body (fuel : nat) : M Z :=
  signal SIGPIPE SIG_IGN ;;
  putOptions (flag_options W) ;;
  emit EvInitializeFromFlags ;;
  (if FLAGS_print_options F
   then emit EvPrintOptions ;; return_ 0
   else ret tt) ;;
  (if FLAGS_parse_transfer_log F then parseTransferLog else ret tt) ;;
  req <- makeRequest ;;
  retCode <- (if empty (FLAGS_destination F)
                 && empty (FLAGS_connection_url F)
              then receiverMode fuel req
              else senderMode req) ;;
  cancelAbort ;;
  ret (errorCodeValue retCode).

(** The state the process starts in. *)
Definition boot : Process :=
  mkProcess (inherited_disposition W) (mkOptions 0 0 false) [].

(** A run of the program: the final process state and how it ended.
    [fuel] is the number of daemon rounds observed. *)
Definition main (fuel : nat) : Process * Outcome :=
  let '(p, r) := main_body fuel boot in
  (p, match r with
      | Val code => Exited code
      | Return code => Exited code
      | Fatal message => Aborted message
      | Thrown => Uncaught
      | Running => StillRunning
      end).

End Main.

(* ================================================================== *)
(** ** A concrete world for the examples *)

Fixpoint consecutive_ports (first : Z) (count : nat) : list Z :=
  match count with
  | O => []
  | S n => first :: consecutive_ports (first + 1) n
  end.

Definition mem_port (p : Z) (l : list Z) : bool := existsb (Z.eqb p) l.

(** A receiver [init] that binds the requested ports that are not busy
    and names the transfer when the request does not: all ports bound is
    OK, some is FEWER_PORTS, none is ERROR. *)
Definition sample_receiver_init (busy : list Z) (req : WdtTransferRequest)
  : WdtTransferRequest :=
  let bound := filter (fun p => negb (mem_port p busy)) (ports req) in
  mkRequest "localhost"
            (if empty (transferId req) then "generated-id" else transferId req)
            (protocolVersion req) bound (directory req) (fileInfo req)
            (match bound with
             | [] => ERROR
             | _ => if Nat.eqb (length bound) (length (ports req))
                    then OK else FEWER_PORTS
             end).

Definition sample_url (req : WdtTransferRequest) : string :=
  "wdt://" ++ hostName req ++ "?id=" ++ transferId req.

(** A URL is taken as valid when it starts with the scheme. *)
Definition sample_requestFromUrl (url : string) : WdtTransferRequest :=
  if String.prefix "wdt://" url
  then mkRequest "localhost" "generated-id" 22 [22334; 22335] EmptyString [] OK
  else mkRequest EmptyString EmptyString 22 [] EmptyString [] ERROR.

(** [busy]: ports already taken on the receiving host; [log_ok]: whether
    the transfer log parses; [summary]: what every transfer reports;
    [input]: what stdin holds. *)
Definition sample_world (busy : list Z) (log_ok : bool) (summary : ErrorCode)
    (input : string) : World :=
  mkWorld (fun _ => SIG_DFL)
          (mkOptions 22334 8 false)
          (fun first count dir =>
             mkRequest EmptyString EmptyString 22
                       (consecutive_ports first (Z.to_nat count))
                       dir [] OK)
          sample_requestFromUrl
          sample_url
          (sample_receiver_init busy)
          (fun _ _ => summary)
          (fun req => req)
          (fun _ _ => summary)
          (fun _ => log_ok)
          input
          (fun _ => None)
          decimal_int64
          ABORTED_BY_APPLICATION
          3.

Definition with_daemon (b : bool) (f : Flags) : Flags :=
  mkFlags b (FLAGS_directory f) (FLAGS_manifest f) (FLAGS_destination f)
    (FLAGS_parse_transfer_log f) (FLAGS_transfer_id f)
    (FLAGS_protocol_version f) (FLAGS_connection_url f)
    (FLAGS_abort_after_seconds f) (FLAGS_recovery_id f)
    (FLAGS_treat_fewer_port_as_error f) (FLAGS_print_options f)
    (FLAGS_exit_on_bad_flags f).

Definition with_destination (d : string) (f : Flags) : Flags :=
  mkFlags (FLAGS_run_as_daemon f) (FLAGS_directory f) (FLAGS_manifest f) d
    (FLAGS_parse_transfer_log f) (FLAGS_transfer_id f)
    (FLAGS_protocol_version f) (FLAGS_connection_url f)
    (FLAGS_abort_after_seconds f) (FLAGS_recovery_id f)
    (FLAGS_treat_fewer_port_as_error f) (FLAGS_print_options f)
    (FLAGS_exit_on_bad_flags f).

Definition with_manifest (m : string) (f : Flags) : Flags :=
  mkFlags (FLAGS_run_as_daemon f) (FLAGS_directory f) m (FLAGS_destination f)
    (FLAGS_parse_transfer_log f) (FLAGS_transfer_id f)
    (FLAGS_protocol_version f) (FLAGS_connection_url f)
    (FLAGS_abort_after_seconds f) (FLAGS_recovery_id f)
    (FLAGS_treat_fewer_port_as_error f) (FLAGS_print_options f)
    (FLAGS_exit_on_bad_flags f).

Definition with_parse_transfer_log (b : bool) (f : Flags) : Flags :=
  mkFlags (FLAGS_run_as_daemon f) (FLAGS_directory f) (FLAGS_manifest f)
    (FLAGS_destination f) b (FLAGS_transfer_id f)
    (FLAGS_protocol_version f) (FLAGS_connection_url f)
    (FLAGS_abort_after_seconds f) (FLAGS_recovery_id f)
    (FLAGS_treat_fewer_port_as_error f) (FLAGS_print_options f)
    (FLAGS_exit_on_bad_flags f).

Definition with_protocol_version (v : Z) (f : Flags) : Flags :=
  mkFlags (FLAGS_run_as_daemon f) (FLAGS_directory f) (FLAGS_manifest f)
    (FLAGS_destination f) (FLAGS_parse_transfer_log f) (FLAGS_transfer_id f)
    v (FLAGS_connection_url f)
    (FLAGS_abort_after_seconds f) (FLAGS_recovery_id f)
    (FLAGS_treat_fewer_port_as_error f) (FLAGS_print_options f)
    (FLAGS_exit_on_bad_flags f).

Definition with_connection_url (u : string) (f : Flags) : Flags :=
  mkFlags (FLAGS_run_as_daemon f) (FLAGS_directory f) (FLAGS_manifest f)
    (FLAGS_destination f) (FLAGS_parse_transfer_log f) (FLAGS_transfer_id f)
    (FLAGS_protocol_version f) u
    (FLAGS_abort_after_seconds f) (FLAGS_recovery_id f)
    (FLAGS_treat_fewer_port_as_error f) (FLAGS_print_options f)
    (FLAGS_exit_on_bad_flags f).

Definition with_abort_after_seconds (n : Z) (f : Flags) : Flags :=
  mkFlags (FLAGS_run_as_daemon f) (FLAGS_directory f) (FLAGS_manifest f)
    (FLAGS_destination f) (FLAGS_parse_transfer_log f) (FLAGS_transfer_id f)
    (FLAGS_protocol_version f) (FLAGS_connection_url f)
    n (FLAGS_recovery_id f)
    (FLAGS_treat_fewer_port_as_error f) (FLAGS_print_options f)
    (FLAGS_exit_on_bad_flags f).

Definition with_recovery_id (id : string) (f : Flags) : Flags :=
  mkFlags (FLAGS_run_as_daemon f) (FLAGS_directory f) (FLAGS_manifest f)
    (FLAGS_destination f) (FLAGS_parse_transfer_log f) (FLAGS_transfer_id f)
    (FLAGS_protocol_version f) (FLAGS_connection_url f)
    (FLAGS_abort_after_seconds f) id
    (FLAGS_treat_fewer_port_as_error f) (FLAGS_print_options f)
    (FLAGS_exit_on_bad_flags f).

Definition with_treat_fewer_port_as_error (b : bool) (f : Flags) : Flags :=
  mkFlags (FLAGS_run_as_daemon f) (FLAGS_directory f) (FLAGS_manifest f)
    (FLAGS_destination f) (FLAGS_parse_transfer_log f) (FLAGS_transfer_id f)
    (FLAGS_protocol_version f) (FLAGS_connection_url f)
    (FLAGS_abort_after_seconds f) (FLAGS_recovery_id f)
    b (FLAGS_print_options f)
    (FLAGS_exit_on_bad_flags f).

Definition with_print_options (b : bool) (f : Flags) : Flags :=
  mkFlags (FLAGS_run_as_daemon f) (FLAGS_directory f) (FLAGS_manifest f)
    (FLAGS_destination f) (FLAGS_parse_transfer_log f) (FLAGS_transfer_id f)
    (FLAGS_protocol_version f) (FLAGS_connection_url f)
    (FLAGS_abort_after_seconds f) (FLAGS_recovery_id f)
    (FLAGS_treat_fewer_port_as_error f) b
    (FLAGS_exit_on_bad_flags f).

(* ================================================================== *)
(** ** Reading a run *)

Definition run_trace (F : Flags) (W : World) (fuel : nat) : list Event :=
  trace (fst (main F W fuel)).

Definition run_outcome (F : Flags) (W : World) (fuel : nat) : Outcome :=
  snd (main F W fuel).

Definition run_options (F : Flags) (W : World) (fuel : nat) : WdtOptions :=
  options (fst (main F W fuel)).

Definition run_disposition (F : Flags) (W : World) (fuel : nat)
  : Signal -> Disposition :=
  disposition (fst (main F W fuel)).

(** The summary error codes of the transfer reports [main] obtained
    ([receiver.finish()], [sender.transfer()]). *)
Fixpoint reported_summaries (tr : list Event) : list ErrorCode :=
  match tr with
  | [] => []
  | EvFinish _ summary :: more => summary :: reported_summaries more
  | EvSenderTransfer _ summary :: more => summary :: reported_summaries more
  | _ :: more => reported_summaries more
  end.

(** A transfer is started on receiver [r]: once, or as a daemon. *)
Definition starts_receiving (r : Receiver) (e : Event) : Prop :=
  e = EvTransferAsync r \/ e = EvRunForever r.

(** Events of an actual transfer. *)
Definition is_transfer (e : Event) : bool :=
  match e with
  | EvTransferAsync _ | EvFinish _ _ | EvRunForever _ | EvDaemonTransfer _
  | EvSenderTransfer _ _ => true
  | _ => false
  end.

Definition is_single_transfer (e : Event) : bool :=
  match e with
  | EvTransferAsync _ | EvFinish _ _ => true
  | _ => false
  end.

Definition is_daemon_transfer (e : Event) : bool :=
  match e with
  | EvDaemonTransfer _ => true
  | _ => false
  end.

Definition is_signal (e : Event) : bool :=
  match e with
  | EvSignal _ _ => true
  | _ => false
  end.

Definition is_log_event (e : Event) : bool :=
  match e with
  | EvSetRootDir _ | EvOpenLog | EvParseAndPrint _ | EvCloseLog => true
  | _ => false
  end.

Definition count (f : Event -> bool) (tr : list Event) : nat :=
  length (filter f tr).

(** The side acts as receiver: a Receiver is built and initialised. *)
Definition acts_as_receiver (tr : list Event) : bool :=
  existsb (fun e => match e with EvReceiverInit _ _ => true | _ => false end)
          tr.

(** The side acts as sender: the sender branch is entered (the manifest
    is read, a Sender is built). *)
Definition acts_as_sender (tr : list Event) : bool :=
  existsb (fun e => match e with
                    | EvReadManifest _ | EvSenderInit _ _ => true
                    | _ => false
                    end) tr.

(** The version a request carries before the flag is looked at: the
    one parsed from the connection URL, or the default of a new request. *)
Definition unoverridden_version (F : Flags) (W : World) : Z :=
  if empty (FLAGS_connection_url F)
  then protocolVersion (newRequest W (start_port (flag_options W))
                                   (num_ports (flag_options W))
                                   (FLAGS_directory F))
  else protocolVersion (requestFromUrl W (FLAGS_connection_url F)).

(** The request init returned lets the receiver go on: it is neither a
    port shortfall treated as an error, nor ERROR. *)
Definition passes_init (F : Flags) (augmentedReq : WdtTransferRequest) : Prop :=
  ~ (FLAGS_treat_fewer_port_as_error F = true
     /\ errorCode augmentedReq = FEWER_PORTS)
  /\ errorCode augmentedReq <> ERROR.

(* ================================================================== *)
(** ** Sample runs *)

(** All ports free. *)
Definition free_world : World := sample_world [] true OK EmptyString.

(** Scenario "port shortfall" of the specification: 8 ports asked for
    from 22334 on, 22335 to 22337 taken. *)
Definition shortfall_world : World :=
  sample_world [22335; 22336; 22337] true OK EmptyString.

(** No port can be bound: init reports ERROR. *)
Definition blocked_world : World :=
  sample_world (consecutive_ports 22334 8) true OK EmptyString.

(** The transfer log does not parse. *)
Definition bad_log_world : World := sample_world [] false OK EmptyString.


Definition sender_by_destination : Flags :=
  with_destination "receiver.example" default_flags.

Definition sender_by_url : Flags :=
  with_connection_url "wdt://localhost?id=generated-id" default_flags.

Definition sender_bad_url : Flags :=
  with_connection_url "localhost:22334" default_flags.

(** The request the Sender gets in the run of [sender_by_url] with
    protocol version 21 asked for. *)
Definition sample_sender_request : WdtTransferRequest :=
  mkRequest "localhost" "generated-id" 21 [22334; 22335] "." [] OK.

(** The request the Receiver gets in the run of [default_flags], and
    what init returns for it when all ports are free. *)
Definition sample_receiver_request : WdtTransferRequest :=
  mkRequest EmptyString EmptyString 22 (consecutive_ports 22334 8) "." [] OK.

Definition sample_augmented_request : WdtTransferRequest :=
  mkRequest "localhost" "generated-id" 22 (consecutive_ports 22334 8) "."
            [] OK.

(** What init returns in the port shortfall scenario: 5 ports bound. *)
Definition sample_shortfall_request : WdtTransferRequest :=
  mkRequest "localhost" "generated-id" 22
            [22334; 22338; 22339; 22340; 22341] "." [] FEWER_PORTS.

(** A manifest line with an empty field between the path and the size:
    a, tab, tab, 5. *)
Definition line_with_empty_field : string :=
  "a" ++ String tab (String tab "5").

(** A two-line manifest: a path with its size, and a path alone. *)
Definition sample_manifest : string :=
  "x/y" ++ String tab "12"
        ++ String newline ("z" ++ String newline EmptyString).

Definition sender_with_stdin_manifest : Flags :=
  with_manifest "-" sender_by_destination.

Definition manifest_world : World := sample_world [] true OK sample_manifest.

(** The request the Sender gets in the run of
    [sender_with_stdin_manifest]. *)
Definition sample_manifest_request : WdtTransferRequest :=
  mkRequest "receiver.example" EmptyString 22 (consecutive_ports 22334 8) "."
            [("x/y", 12); ("z", -1)] OK.

(* ================================================================== *)
(** ** Streams and manifests as they are written *)

(** The stream stands at the start of a line: it is empty, or its last
    character is a newline. *)
Fixpoint at_line_start (s : string) : bool :=
  match s with
  | EmptyString => true
  | String c rest =>
      match rest with
      | EmptyString => Ascii.eqb c newline
      | String _ _ => at_line_start rest
      end
  end.

(** Lines, each ended by a newline. *)
Fixpoint unlines (lines : list string) : string :=
  match lines with
  | [] => EmptyString
  | line :: more => line ++ String newline (unlines more)
  end.

(** A field a manifest writer may emit: not empty, no tab, no newline. *)
Definition plain_field (f : string) : bool :=
  negb (empty f) && free_of tab f && free_of newline f.

(** A row of a manifest: the path, and the size as text with its value
    when the size is given. *)
Definition manifest_row : Type := (string * option (string * Z))%type.

Definition row_line (row : manifest_row) : string :=
  match row with
  | (path, None) => path
  | (path, Some (text, _)) => path ++ String tab text
  end.

Definition row_entry (row : manifest_row) : string * Z :=
  match row with
  | (path, None) => (path, -1)
  | (path, Some (_, size)) => (path, size)
  end.

(** The row can be written and read back with [conv]. *)
Definition row_ok (conv : string -> option Z) (row : manifest_row) : Prop :=
  plain_field (fst row) = true
  /\ match snd row with
     | None => True
     | Some (text, size) => plain_field text = true /\ conv text = Some size
     end.

(** Failure of a statement carried over to another result type. *)
Definition failure_of {A B : Type} (r : Result A) : Result B :=
  match r with
  | Val _ => Running
  | Return code => Return code
  | Fatal message => Fatal message
  | Thrown => Thrown
  | Running => Running
  end.

(** Inputs of the examples. *)
Definition blank_request : WdtTransferRequest :=
  mkRequest EmptyString EmptyString 0 [] EmptyString [] OK.

Definition sample_rows : list manifest_row :=
  [("x/y", Some ("12", 12)); ("z", None)].

(** [sample_manifest] without its final newline. *)
Definition sample_manifest_open : string :=
  "x/y" ++ String tab "12" ++ String newline "z".

(* ================================================================== *)
(** ** More ways to read a run *)

Definition with_transfer_id (t : string) (f : Flags) : Flags :=
  mkFlags (FLAGS_run_as_daemon f) (FLAGS_directory f) (FLAGS_manifest f)
    (FLAGS_destination f) (FLAGS_parse_transfer_log f) t
    (FLAGS_protocol_version f) (FLAGS_connection_url f)
    (FLAGS_abort_after_seconds f) (FLAGS_recovery_id f)
    (FLAGS_treat_fewer_port_as_error f) (FLAGS_print_options f)
    (FLAGS_exit_on_bad_flags f).

(** What the stream [readManifest] is given holds: stdin for "-",
    otherwise the named file, nothing when it cannot be opened. *)
Definition manifest_content (F : Flags) (W : World) : string :=
  if String.eqb (FLAGS_manifest F) "-" then cin W
  else match file W (FLAGS_manifest F) with
       | Some content => content
       | None => EmptyString
       end.

Definition is_cancel (e : Event) : bool :=
  match e with
  | EvCancelAbort => true
  | _ => false
  end.

Definition is_abort_setup (e : Event) : bool :=
  match e with
  | EvSetAbortChecker _ => true
  | _ => false
  end.

Definition is_manifest_read (e : Event) : bool :=
  match e with
  | EvReadManifest _ => true
  | _ => false
  end.

(** The process died: [LOG(FATAL)] or an exception nobody caught. *)
Definition died (o : Outcome) : bool :=
  match o with
  | Aborted _ | Uncaught => true
  | _ => false
  end.


(** A sender given a manifest file that does not exist. *)
Definition sender_with_missing_manifest : Flags :=
  with_manifest "files.txt" sender_by_destination.

(* ================================================================== *)
(** ** Printing a set *)

Section PrintSet.

(** The element type and its [operator<<]. *)
Variable T : Type.
Variable show : T -> string.

(** [std::copy(first, last, std::ostream_iterator<T>(os, delimiter))] on
    an output stream that holds [os] so far. *)
Fixpoint copy_to_ostream (elements : list T) (delimiter : string)
    (os : string) : string :=
  match elements with
  | [] => os
  | x :: more => copy_to_ostream more delimiter (os ++ show x ++ delimiter)
  end.

(** [os << v] for a [std::set<T>] (lines 78-82), [v] being the elements
    in the order the set iterates over them. *)
Definition print_set (os : string) (v : list T) : string :=
  copy_to_ostream v " " os.

End PrintSet.

Definition space : ascii := " "%char.

(* ================================================================== *)
(** ** Flag errors *)

(** The handler [main] installs as [google::gflags_exitfunc] (lines
    151-156), called with [code] while [badGflagFound] holds [bad]:
    [Return] is [exit(code)], [Val] the new value of [badGflagFound]. *)
Definition gflags_exitfunc (F : Flags) (code : Z) (bad : bool) : Result bool :=
  if FLAGS_exit_on_bad_flags F then Return code else Val true.

(** The calls the flag library makes to the handler while it parses the
    command line, one after the other. *)
Fixpoint handler_calls (F : Flags) (codes : list Z) (bad : bool)
  : Result bool :=
  match codes with
  | [] => Val bad
  | code :: more =>
      match gflags_exitfunc F code bad with
      | Val bad' => handler_calls F more bad'
      | Return c => Return c
      | Fatal message => Fatal message
      | Thrown => Thrown
      | Running => Running
      end
  end.

(** The whole program (lines 138-262): the command line is parsed, the
    library calling the handler with [codes], then the body of [main]
    runs.  The result is [badGflagFound] and the run. *)
Definition program (F : Flags) (W : World) (codes : list Z) (fuel : nat)
  : bool * (Process * Outcome) :=
  match handler_calls F codes false with
  | Val bad => (bad, main F W fuel)
  | Return code => (false, (boot W, Exited code))
  | Fatal message => (false, (boot W, Aborted message))
  | Thrown => (false, (boot W, Uncaught))
  | Running => (false, (boot W, StillRunning))
  end.

(* ================================================================== *)
(** ** Error lines of the log *)

(** The request [main] hands to the Receiver when no URL is given
    (lines 189-192 and 203-205). *)
Definition receiver_request (F : Flags) (W : World) : WdtTransferRequest :=
  let req :=
    set_transferId (FLAGS_transfer_id F)
      (set_hostName (FLAGS_destination F)
         (newRequest W (start_port (flag_options W))
                     (num_ports (flag_options W)) (FLAGS_directory F))) in
  if 0 <? FLAGS_protocol_version F
  then set_protocolVersion (FLAGS_protocol_version F) req
  else req.

(** The lines [main] writes with [LOG(ERROR)] and [LOG_IF(ERROR, ...)]
    (lines 160, 180, 197, 212 and 216), in order; [errorCodeToStr] is the
    library's. *)
Definition error_log (errorCodeToStr : ErrorCode -> string) (F : Flags)
    (W : World) (badGflagFound : bool) : list string :=
  app (if badGflagFound then ["Continuing despite bad flags"] else [])
     (if FLAGS_print_options F then []
      else if FLAGS_parse_transfer_log F then
        if log_parses W (FLAGS_directory F)
        then ["Transfer log parsing failed"]
        else []
      else if negb (empty (FLAGS_connection_url F)) then
        if negb (errorCode_eqb
                   (errorCode (requestFromUrl W (FLAGS_connection_url F))) OK)
        then ["Invalid url "
                ++ errorCodeToStr
                     (errorCode (requestFromUrl W (FLAGS_connection_url F)))]
        else []
      else if empty (FLAGS_destination F) then
        let augmentedReq := receiver_init W (receiver_request F W) in
        if FLAGS_treat_fewer_port_as_error F
           && errorCode_eqb (errorCode augmentedReq) FEWER_PORTS
        then ["Receiver could not bind to all the ports"]
        else if errorCode_eqb (errorCode augmentedReq) ERROR
        then ["Error setting up receiver"]
        else []
      else []).

(** A rendering of error codes for the examples. *)
Definition sample_errorCodeToStr (e : ErrorCode) : string :=
  match e with
  | OK => "OK"
  | _ => "ERROR"
  end.


(* ================================================================== *)
(** * Properties *)

(** ** Error codes *)

Lemma errorCodeValue_inj (a b : ErrorCode) :
  errorCodeValue a = errorCodeValue b -> a = b.
Proof.
  destruct a, b; simpl; intros H; try reflexivity; discriminate H.
Qed.

Lemma errorCode_eqb_eq (a b : ErrorCode) :
  errorCode_eqb a b = true <-> a = b.
Proof.
  unfold errorCode_eqb. rewrite Z.eqb_eq. split.
  - apply errorCodeValue_inj.
  - intros ->. reflexivity.
Qed.

Lemma errorCode_eqb_neq (a b : ErrorCode) :
  errorCode_eqb a b = false <-> a <> b.
Proof.
  rewrite <- errorCode_eqb_eq. destruct (errorCode_eqb a b); split; congruence.
Qed.


Lemma errorCodeValue_zero (e : ErrorCode) : errorCodeValue e = 0 <-> e = OK.
Proof.
  split.
  - intros H. apply errorCodeValue_inj. exact H.
  - intros ->. reflexivity.
Qed.

(** ** Rounds of the daemon loop *)

Lemma rounds_shape (final : ErrorCode) (armed : bool) (abortAt fuel : nat) :
  forall round served r,
    runForever_rounds final armed abortAt fuel round = (served, r) ->
    Forall (fun e => is_daemon_transfer e = true) served
    /\ (r = Running \/ r = Val final).
Proof.
  induction fuel as [|fuel IH]; intros round served r H; simpl in H.
  - inversion H; subst. split; [constructor | left; reflexivity].
  - destruct (abort_fired armed abortAt round).
    + inversion H; subst. split; [constructor | right; reflexivity].
    + destruct (runForever_rounds final armed abortAt fuel (S round))
        as [s' r'] eqn:E.
      inversion H; subst. destruct (IH _ _ _ E) as [Hs Hr].
      split; [constructor; [reflexivity | exact Hs] | exact Hr].
Qed.

(** While the abort checker keeps quiet the loop serves one transfer per
    round and does not end. *)
Lemma rounds_quiet (final : ErrorCode) (armed : bool) (abortAt fuel : nat) :
  forall round,
    armed = false \/ (round + fuel <= abortAt)%nat ->
    runForever_rounds final armed abortAt fuel round
    = (map EvDaemonTransfer (seq round fuel), Running).
Proof.
  induction fuel as [|fuel IH]; intros round H; simpl.
  - reflexivity.
  - assert (Hq : abort_fired armed abortAt round = false).
    { unfold abort_fired. destruct H as [-> | H]; [reflexivity|].
      destruct armed; [|reflexivity]. simpl. apply Nat.leb_gt. lia. }
    rewrite Hq, IH; [reflexivity|].
    destruct H as [H | H]; [left; exact H | right; lia].
Qed.

(** Once the abort checker fires the loop ends, having served the rounds
    before. *)
Lemma rounds_aborted (final : ErrorCode) (abortAt fuel : nat) :
  forall round,
    (round <= abortAt)%nat -> (abortAt < round + fuel)%nat ->
    runForever_rounds final true abortAt fuel round
    = (map EvDaemonTransfer (seq round (abortAt - round)), Val final).
Proof.
  induction fuel as [|fuel IH]; intros round Hle Hlt; simpl.
  - lia.
  - unfold abort_fired. simpl. destruct (Nat.leb abortAt round) eqn:E.
    + apply Nat.leb_le in E. replace (abortAt - round)%nat with O by lia.
      reflexivity.
    + apply Nat.leb_gt in E. rewrite IH by lia.
      replace (abortAt - round)%nat with (S (abortAt - S round)) by lia.
      reflexivity.
Qed.

(** The rounds of the daemon loop are not single transfers and hand no
    report to main. *)
Lemma served_summaries (served rest : list Event) :
  Forall (fun e => is_daemon_transfer e = true) served ->
  reported_summaries (served ++ rest) = reported_summaries rest.
Proof.
  induction 1 as [|e l He _ IH]; simpl; [reflexivity|].
  destruct e; try discriminate He. exact IH.
Qed.

Lemma served_summaries_nil (served : list Event) :
  Forall (fun e => is_daemon_transfer e = true) served ->
  reported_summaries served = [].
Proof.
  intros H. rewrite <- (app_nil_r served). rewrite served_summaries by exact H.
  reflexivity.
Qed.

Lemma served_In (served : list Event) (e : Event) :
  Forall (fun e => is_daemon_transfer e = true) served ->
  In e served -> is_daemon_transfer e = true.
Proof.
  intros H Hin. rewrite Forall_forall in H. apply H. exact Hin.
Qed.

Lemma served_filter (f : Event -> bool) (served rest : list Event) :
  Forall (fun e => is_daemon_transfer e = true) served ->
  (forall n, f (EvDaemonTransfer n) = false) ->
  filter f (served ++ rest) = filter f rest.
Proof.
  intros Hs Hf. induction Hs as [|e l He _ IH]; simpl; [reflexivity|].
  destruct e; try discriminate He. rewrite Hf. exact IH.
Qed.

Lemma served_filter_nil (f : Event -> bool) (served : list Event) :
  Forall (fun e => is_daemon_transfer e = true) served ->
  (forall n, f (EvDaemonTransfer n) = false) ->
  filter f served = [].
Proof.
  intros Hs Hf. rewrite <- (app_nil_r served).
  rewrite served_filter by assumption. reflexivity.
Qed.

Lemma served_existsb (f : Event -> bool) (served : list Event) :
  Forall (fun e => is_daemon_transfer e = true) served ->
  (forall n, f (EvDaemonTransfer n) = false) ->
  existsb f served = false.
Proof.
  intros Hs Hf. induction Hs as [|e l He _ IH]; simpl; [reflexivity|].
  destruct e; try discriminate He. rewrite Hf. exact IH.
Qed.

Lemma served_kept (served rest : list Event) :
  Forall (fun e => is_daemon_transfer e = true) served ->
  filter is_daemon_transfer (served ++ rest)
  = (served ++ filter is_daemon_transfer rest)%list.
Proof.
  induction 1 as [|e l He _ IH]; simpl; [reflexivity|].
  rewrite He, IH. reflexivity.
Qed.

(** How many transfers the daemon loop serves within [fuel] rounds, and
    whether it has ended. *)
Lemma rounds_count (final : ErrorCode) (armed : bool) (abortAt fuel : nat)
    (served : list Event) (res : Result ErrorCode) :
  runForever_rounds final armed abortAt fuel 0 = (served, res) ->
  (armed = false \/ (fuel <= abortAt)%nat ->
   res = Running /\ length served = fuel)
  /\ (armed = true -> (abortAt < fuel)%nat ->
      res = Val final /\ length served = abortAt).
Proof.
  intros H. split.
  - intros Hq. rewrite rounds_quiet in H by (simpl; exact Hq).
    inversion H; subst. split; [reflexivity|].
    rewrite length_map, length_seq. reflexivity.
  - intros -> Hlt. rewrite rounds_aborted in H by lia.
    inversion H; subst. split; [reflexivity|].
    rewrite length_map, length_seq. lia.
Qed.

Lemma served_kept_nil (served : list Event) :
  Forall (fun e => is_daemon_transfer e = true) served ->
  filter is_daemon_transfer served = served.
Proof.
  intros H. rewrite <- (app_nil_r served) at 1.
  rewrite served_kept by exact H. simpl. apply app_nil_r.
Qed.

(** ** Fields kept by readManifest *)

(** Reading a manifest only appends to the file list of the request. *)
Lemma readManifest_loop_fields (conv : string -> option Z)
    (lines : list string) :
  forall req req',
    readManifest_loop conv lines req = Val req' ->
    hostName req' = hostName req
    /\ transferId req' = transferId req
    /\ protocolVersion req' = protocolVersion req
    /\ ports req' = ports req
    /\ directory req' = directory req
    /\ errorCode req' = errorCode req
    /\ exists entries, fileInfo req' = (fileInfo req ++ entries)%list.
Proof.
  induction lines as [|line more IH]; intros req req' H; simpl in H.
  - inversion H; subst. repeat split. exists []. symmetry. apply app_nil_r.
  - destruct (manifestEntry conv line) as [entry| | | |]; try discriminate H.
    destruct (IH _ _ H) as (H1 & H2 & H3 & H4 & H5 & H6 & entries & H7).
    simpl in *. repeat split; try assumption.
    exists (entry :: entries). rewrite H7, <- app_assoc. reflexivity.
Qed.

Lemma readManifest_fields (conv : string -> option Z) (fin : string)
    (req req' : WdtTransferRequest) :
  readManifest conv fin req = Val req' ->
  hostName req' = hostName req
  /\ transferId req' = transferId req
  /\ protocolVersion req' = protocolVersion req
  /\ ports req' = ports req
  /\ directory req' = directory req
  /\ errorCode req' = errorCode req
  /\ exists entries, fileInfo req' = (fileInfo req ++ entries)%list.
Proof. apply readManifest_loop_fields. Qed.

(** ** Case analysis along the control flow of main *)

Local Arguments errorCode_eqb : simpl never.
Local Arguments empty : simpl never.
Local Arguments String.eqb : simpl never.
Local Arguments Z.ltb : simpl never.
Local Arguments Z.leb : simpl never.
Local Arguments readManifest : simpl never.
Local Arguments runForever_rounds : simpl never.
Local Arguments errorCodeValue : simpl never.
Local Arguments In : simpl never.

Ltac unfold_main :=
  unfold run_trace, run_outcome, run_options, run_disposition, main,
    main_body, boot, makeRequest, receiverMode, senderMode, parseTransferLog,
    runForever, setUpAbort, cancelAbort, signal, emit, emit_all, getOptions,
    putOptions, return_, lift, ret, bind in *.

Ltac branch :=
  match goal with
  | |- context [if ?b then _ else _] => destruct b eqn:?
  | |- context [runForever_rounds ?f ?a ?b ?c ?d] =>
      let served := fresh "served" in
      let res := fresh "res" in
      let E := fresh "Hrounds" in
      destruct (runForever_rounds f a b c d) as [served res] eqn:E;
      let Hs := fresh "Hserved" in
      destruct (rounds_shape _ _ _ _ _ _ _ E) as [Hs [-> | ->]]
  | |- context [readManifest ?a ?b ?c] =>
      destruct (readManifest a b c) eqn:?
  | |- context [match file ?w ?m with _ => _ end] =>
      destruct (file w m) eqn:?
  end.

Ltac run_cases := unfold_main; repeat (cbn; branch); cbn.

(** All the ways a run can go: the goal and the hypotheses once for each
    path through main, the run replaced by its final state and outcome. *)
Ltac by_run F W fuel :=
  unfold run_trace, run_outcome, run_options, run_disposition in *;
  let R := fresh "R" in
  let HR := fresh "HR" in
  remember (main F W fuel) as R eqn:HR;
  revert HR; run_cases; intros ->;
  cbn [fst snd trace options disposition] in *.

(** Membership of an event in the trace of a run, event by event. *)
Ltac in_trace H :=
  lazymatch type of H with
  | In _ (_ :: _) => destruct H as [H | H]; [try discriminate H | in_trace H]
  | In _ [] => destruct H
  | _ \/ _ => destruct H as [H | H]; [try discriminate H | in_trace H]
  | False => destruct H
  | In _ (_ ++ _) => apply in_app_or in H; destruct H as [H | H]; in_trace H
  | In _ _ =>
      first [ apply served_In in H; [discriminate H | assumption] | idtac ]
  | _ => idtac
  end.

(** An event that is in the trace of a run. *)
Ltac find_event :=
  lazymatch goal with
  | |- In _ (_ :: _) => first [ left; reflexivity | right; find_event ]
  | |- In _ (_ ++ _) => apply in_or_app; right; find_event
  end.

(** The receiver on which the transfer of the run is started. *)
Ltac the_receiver :=
  match goal with
  | |- context [EvRunForever ?R :: _] => exists R
  | |- context [EvTransferAsync ?R :: _] => exists R
  end.

(** The tests of the program as propositions. *)
Ltac decode :=
  repeat match goal with
    | H : false = true |- _ => discriminate H
    | H : true = false |- _ => discriminate H
    | H : negb _ = true |- _ => apply negb_true_iff in H
    | H : negb _ = false |- _ => apply negb_false_iff in H
    | H : andb _ _ = true |- _ => apply andb_true_iff in H; destruct H
    | H : andb _ _ = false |- _ => apply andb_false_iff in H; destruct H
    | H : errorCode_eqb _ _ = true |- _ => apply errorCode_eqb_eq in H
    | H : errorCode_eqb _ _ = false |- _ => apply errorCode_eqb_neq in H
    | H : (_ <? _) = true |- _ => apply Z.ltb_lt in H
    | H : (_ <? _) = false |- _ => apply Z.ltb_ge in H
    | H : (_ <=? _) = true |- _ => apply Z.leb_le in H
    | H : (_ <=? _) = false |- _ => apply Z.leb_gt in H
    end.

(** ** The exit code *)



(** ** Fewer ports than asked for *)

(** C2. In a receiver run whose init reports FEWER_PORTS: with
    treat_fewer_port_as_error set the process exits with code FEWER_PORTS
    right after init, nothing printed and nothing transferred; with the
    flag unset the run goes on and the transfer (a single one, or the
    daemon loop) is performed by the receiver holding the request init
    returned, that is on the ports that were bound. *)
Theorem fewer_ports_policy (F : Flags) (W : World) (fuel : nat)
    (req aug : WdtTransferRequest) :
  In (EvReceiverInit req aug) (run_trace F W fuel) ->
  errorCode aug = FEWER_PORTS ->
  aug = receiver_init W req
  /\ (FLAGS_treat_fewer_port_as_error F = true ->
      run_outcome F W fuel = Exited (errorCodeValue FEWER_PORTS)
      /\ run_trace F W fuel
         = [EvSignal SIGPIPE SIG_IGN; EvInitializeFromFlags;
            EvReceiverInit req aug])
  /\ (FLAGS_treat_fewer_port_as_error F = false ->
      exists r,
        rcv_request r = aug
        /\ ports (rcv_request r) = ports aug
        /\ if FLAGS_run_as_daemon F
           then In (EvRunForever r) (run_trace F W fuel)
           else In (EvTransferAsync r) (run_trace F W fuel)
                /\ In (EvFinish r (receiver_summary W r (run_options F W fuel)))
                      (run_trace F W fuel)
                /\ run_outcome F W fuel
                   = Exited (errorCodeValue
                               (receiver_summary W r (run_options F W fuel)))).
Proof.
  intros Hin Hfew.
  by_run F W fuel; in_trace Hin; decode;
    try (injection Hin as <- <-); try congruence.
  all: split; [reflexivity | split]; intros Ht; try congruence.
  all: try (split; reflexivity).
  all: the_receiver; split; [reflexivity | split; [reflexivity |]].
  all: try find_event.
  all: split; [find_event | split; [find_event | reflexivity]].
Qed.

(** C2, witness: the port shortfall scenario of the specification, with
    the flag set (exit code FEWER_PORTS) and unset (transfer over the 5
    ports that could be bound). *)
Lemma fewer_ports_policy_witness :
  run_outcome (with_treat_fewer_port_as_error true default_flags)
              shortfall_world 0
  = Exited (errorCodeValue FEWER_PORTS)
  /\ exists r,
       length (ports (rcv_request r)) = 5%nat
       /\ In (EvTransferAsync r) (run_trace default_flags shortfall_world 0).
Proof.
  split.
  - destruct (fewer_ports_policy
                (with_treat_fewer_port_as_error true default_flags)
                shortfall_world 0
                sample_receiver_request sample_shortfall_request)
      as (_ & H & _).
    + vm_compute. do 2 right. left. reflexivity.
    + reflexivity.
    + apply H. reflexivity.
  - destruct (fewer_ports_policy default_flags shortfall_world 0
                sample_receiver_request sample_shortfall_request)
      as (_ & _ & H).
    + vm_compute. do 2 right. left. reflexivity.
    + reflexivity.
    + destruct (H eq_refl) as (r & _ & Hports & Hstart & _).
      exists r. split; [rewrite Hports; reflexivity | exact Hstart].
Defined.

(** ** Receiver or sender *)

(** C3, counterexample to the claim as stated. With an empty destination
    and a valid connection URL the side is the sender, not the receiver. *)
Lemma empty_destination_sender :
  empty (FLAGS_destination sender_by_url) = true
  /\ acts_as_receiver (run_trace sender_by_url free_world 0) = false
  /\ acts_as_sender (run_trace sender_by_url free_world 0) = true
  /\ ~ (acts_as_receiver (run_trace sender_by_url free_world 0) = true
        <-> empty (FLAGS_destination sender_by_url) = true).
Proof.
  assert (H : acts_as_receiver (run_trace sender_by_url free_world 0) = false)
    by (vm_compute; reflexivity).
  split; [reflexivity | split; [exact H | split; [vm_compute; reflexivity |]]].
  intros [_ Hback]. rewrite H in Hback.
  discriminate (Hback eq_refl).
Qed.

(** C3, amended. A run is never both receiver and sender; it acts as
    receiver only if the destination and the connection URL are both
    empty, and as sender only if one of them is not; and every run that
    gets to choose (print_options and parse_transfer_log unset, the
    connection URL empty or valid) acts as receiver exactly when both
    flags are empty, and as sender otherwise. *)
Theorem role_selection (F : Flags) (W : World) (fuel : nat) :
  (acts_as_receiver (run_trace F W fuel) = true ->
   acts_as_sender (run_trace F W fuel) = false
   /\ empty (FLAGS_destination F) = true
   /\ empty (FLAGS_connection_url F) = true)
  /\ (acts_as_sender (run_trace F W fuel) = true ->
      empty (FLAGS_destination F) = false
      \/ empty (FLAGS_connection_url F) = false)
  /\ (FLAGS_print_options F = false ->
      FLAGS_parse_transfer_log F = false ->
      (empty (FLAGS_connection_url F) = false ->
       errorCode (requestFromUrl W (FLAGS_connection_url F)) = OK) ->
      acts_as_receiver (run_trace F W fuel)
      = empty (FLAGS_destination F) && empty (FLAGS_connection_url F)
      /\ acts_as_sender (run_trace F W fuel)
         = negb (empty (FLAGS_destination F)
                 && empty (FLAGS_connection_url F))).
Proof.
  by_run F W fuel; unfold acts_as_receiver, acts_as_sender; simpl;
    rewrite ?existsb_app, ?served_existsb
      by (try assumption; try (intro; reflexivity));
    simpl; decode.
  all: intuition congruence.
Qed.

(** C3, witness: a receiver run, and a sender run by connection URL. *)
Lemma role_selection_witness :
  acts_as_receiver (run_trace default_flags free_world 0) = true
  /\ acts_as_sender (run_trace sender_by_url free_world 0) = true.
Proof.
  split.
  - destruct (role_selection default_flags free_world 0) as (_ & _ & H).
    destruct H as [H _];
      [reflexivity | reflexivity | intros E; discriminate E | exact H].
  - destruct (role_selection sender_by_url free_world 0) as (_ & _ & H).
    destruct H as [_ H];
      [reflexivity | reflexivity | intros _; reflexivity | exact H].
Defined.

(** ** Signal handling *)

(** C5, counterexample to the claim as stated. After a complete receiver
    run SIGINT and SIGTERM still have their default action: no handler
    that sets the abort flag was installed. *)
Lemma sigint_sigterm_not_handled :
  run_outcome default_flags free_world 0 = Exited 0
  /\ run_disposition default_flags free_world 0 SIGINT = SIG_DFL
  /\ run_disposition default_flags free_world 0 SIGTERM = SIG_DFL
  /\ ~ (run_disposition default_flags free_world 0 SIGPIPE = SIG_IGN
        /\ run_disposition default_flags free_world 0 SIGINT = AbortHandler
        /\ run_disposition default_flags free_world 0 SIGTERM = AbortHandler).
Proof.
  repeat split; try reflexivity.
  intros (_ & H & _). vm_compute in H. discriminate H.
Qed.

(** C5, amended. In every run main sets SIGPIPE to be ignored, by the
    first call it makes and by no other; it leaves SIGINT and SIGTERM as
    the process inherited them; and the only abort trigger it installs is
    the timer of abort_after_seconds, when that flag is positive. *)
Theorem signal_setup (F : Flags) (W : World) (fuel : nat) :
  run_disposition F W fuel SIGPIPE = SIG_IGN
  /\ run_disposition F W fuel SIGINT = inherited_disposition W SIGINT
  /\ run_disposition F W fuel SIGTERM = inherited_disposition W SIGTERM
  /\ (exists rest,
         run_trace F W fuel = EvSignal SIGPIPE SIG_IGN :: rest
         /\ count is_signal rest = 0%nat)
  /\ (forall seconds,
         In (EvSetAbortChecker seconds) (run_trace F W fuel) ->
         seconds = FLAGS_abort_after_seconds F /\ 0 < seconds).
Proof.
  by_run F W fuel.
  all: split; [reflexivity | split; [reflexivity | split; [reflexivity |]]].
  all: split;
    [ eexists; split; [reflexivity |]; unfold count; simpl;
      rewrite ?served_filter, ?served_filter_nil
        by (try assumption; try (intro; reflexivity));
      reflexivity
    | intros seconds Hin; in_trace Hin; decode;
      injection Hin as <-; split; first [reflexivity | assumption] ].
Qed.

(** C5, witness: with abort_after_seconds = 5 the timer is the abort
    trigger of the run. *)
Lemma signal_setup_witness :
  run_disposition (with_abort_after_seconds 5 default_flags) free_world 0
                  SIGPIPE
  = SIG_IGN
  /\ 0 < 5.
Proof.
  split.
  - exact (proj1 (signal_setup (with_abort_after_seconds 5 default_flags)
                    free_world 0)).
  - refine (proj2 (proj2 (proj2 (proj2 (proj2
              (signal_setup (with_abort_after_seconds 5 default_flags)
                 free_world 0)))) 5 _)).
    vm_compute. do 6 right. left. reflexivity.
Defined.

(** ** Parsing the transfer log *)

(** C6, counterexample to the claim as stated. With print_options set as
    well, the program prints the options and exits with 0: the log is
    not opened, although it would not parse. *)
Lemma parse_transfer_log_after_print_options :
  FLAGS_parse_transfer_log
    (with_print_options true (with_parse_transfer_log true default_flags))
  = true
  /\ log_parses bad_log_world "." = false
  /\ run_trace (with_print_options true
                  (with_parse_transfer_log true default_flags))
               bad_log_world 0
     = [EvSignal SIGPIPE SIG_IGN; EvInitializeFromFlags; EvPrintOptions]
  /\ existsb is_log_event
       (run_trace (with_print_options true
                     (with_parse_transfer_log true default_flags))
                  bad_log_world 0)
     = false
  /\ run_outcome (with_print_options true
                    (with_parse_transfer_log true default_flags))
                 bad_log_world 0
     = Exited 0.
Proof. repeat split. Qed.

(** C6, amended. When parse_transfer_log is set and print_options is
    not, the program performs no transfer: it points the log manager at
    the directory, opens the log, parses and prints it, closes it, and
    exits with OK (0) exactly when parsing succeeded and with ERROR (1)
    otherwise; download resumption is switched on for the parsing. *)
Theorem parse_transfer_log_mode (F : Flags) (W : World) (fuel : nat) :
  FLAGS_print_options F = false ->
  FLAGS_parse_transfer_log F = true ->
  run_trace F W fuel
  = [EvSignal SIGPIPE SIG_IGN; EvInitializeFromFlags;
     EvSetRootDir (FLAGS_directory F); EvOpenLog;
     EvParseAndPrint (log_parses W (FLAGS_directory F)); EvCloseLog]
  /\ existsb is_transfer (run_trace F W fuel) = false
  /\ run_outcome F W fuel
     = Exited (if log_parses W (FLAGS_directory F)
               then errorCodeValue OK else errorCodeValue ERROR)
  /\ (run_outcome F W fuel = Exited 0
      <-> log_parses W (FLAGS_directory F) = true)
  /\ (run_outcome F W fuel = Exited (errorCodeValue ERROR)
      <-> log_parses W (FLAGS_directory F) = false)
  /\ enable_download_resumption (run_options F W fuel) = true.
Proof.
  intros Hprint Hparse.
  unfold run_trace, run_outcome, run_options, main, main_body, boot,
    parseTransferLog, signal, emit, getOptions, putOptions, return_, ret, bind.
  rewrite Hprint, Hparse. cbn.
  destruct (log_parses W (FLAGS_directory F)); cbn;
    repeat split; try reflexivity; try discriminate.
Qed.

(** C6, witness: a log that parses and one that does not. *)
Lemma parse_transfer_log_mode_witness :
  run_outcome (with_parse_transfer_log true default_flags) free_world 0
  = Exited 0
  /\ run_outcome (with_parse_transfer_log true default_flags) bad_log_world 0
     = Exited (errorCodeValue ERROR).
Proof.
  split.
  - apply (parse_transfer_log_mode (with_parse_transfer_log true default_flags)
             free_world 0 eq_refl eq_refl).
    reflexivity.
  - apply (parse_transfer_log_mode (with_parse_transfer_log true default_flags)
             bad_log_world 0 eq_refl eq_refl).
    reflexivity.
Defined.

(** ** The protocol version flag *)

(** C9. The request handed to the Receiver or the Sender carries the
    value of the protocol_version flag when that value is strictly
    positive, and otherwise the version it had before: the one parsed
    from the connection URL, or the default of a new request. *)
Theorem protocol_version_override (F : Flags) (W : World) (fuel : nat)
    (req other : WdtTransferRequest) :
  In (EvReceiverInit req other) (run_trace F W fuel)
  \/ In (EvSenderInit req other) (run_trace F W fuel) ->
  (0 < FLAGS_protocol_version F ->
   protocolVersion req = FLAGS_protocol_version F)
  /\ (FLAGS_protocol_version F <= 0 ->
      protocolVersion req = unoverridden_version F W).
Proof.
  intros Hin. unfold unoverridden_version.
  by_run F W fuel; destruct Hin as [Hin | Hin]; in_trace Hin; decode;
    injection Hin as <- <-;
    repeat match goal with
      | H : readManifest _ _ _ = Val _ |- _ =>
          apply readManifest_fields in H;
          destruct H as (_ & _ & -> & _)
      end;
    simpl; split; intros; first [reflexivity | lia].
Qed.

(** C9, witness: version 21 asked for on the sender, nothing asked for
    on the receiver. *)
Lemma protocol_version_override_witness :
  protocolVersion sample_sender_request = 21
  /\ protocolVersion sample_receiver_request = 22.
Proof.
  split.
  - apply (protocol_version_override
             (with_protocol_version 21 sender_by_url) free_world 0
             sample_sender_request sample_sender_request).
    + right. vm_compute. do 3 right. left. reflexivity.
    + reflexivity.
  - apply (protocol_version_override default_flags free_world 0
             sample_receiver_request sample_augmented_request).
    + left. vm_compute. do 2 right. left. reflexivity.
    + vm_compute. discriminate.
Defined.

(** ** The connection URL *)

(** C8. In every receiver run that passes initialisation, the first
    things that happen after init are that the URL generated from the
    request init returned (host, bound ports, transfer id) is written to
    stdout, the line is ended and stdout is flushed; the transfer is
    started only after that, by the receiver holding that request.  And
    when connection_url is given, the request of the Sender has the host,
    ports and transfer id of the request parsed from that URL, which was
    valid. *)
Theorem connection_url_handshake (F : Flags) (W : World) (fuel : nat) :
  (forall req aug,
      In (EvReceiverInit req aug) (run_trace F W fuel) ->
      passes_init F aug ->
      exists r start after,
        run_trace F W fuel
        = ([EvSignal SIGPIPE SIG_IGN; EvInitializeFromFlags;
            EvReceiverInit req aug;
            EvCout (generateUrl W aug); EvEndl; EvFlush] ++ after)%list
        /\ In start after
        /\ starts_receiving r start
        /\ rcv_request r = aug)
  /\ (forall req processed,
         In (EvSenderInit req processed) (run_trace F W fuel) ->
         empty (FLAGS_connection_url F) = false ->
         let parsed := requestFromUrl W (FLAGS_connection_url F) in
         In (EvParseUrl (FLAGS_connection_url F)) (run_trace F W fuel)
         /\ errorCode parsed = OK
         /\ hostName req = hostName parsed
         /\ ports req = ports parsed
         /\ transferId req = transferId parsed
         /\ directory req = FLAGS_directory F).
Proof.
  split.
  - intros req aug Hin [Hfew Herr].
    by_run F W fuel; in_trace Hin; decode; injection Hin as <- <-;
      try tauto.
    all: match goal with
         | |- context [EvRunForever ?R :: _] =>
             exists R, (EvRunForever R)
         | |- context [EvTransferAsync ?R :: _] =>
             exists R, (EvTransferAsync R)
         end.
    all: eexists; split; [reflexivity | split; [find_event |]].
    all: split; [first [left; reflexivity | right; reflexivity] | reflexivity].
  - intros req processed Hin Hurl.
    by_run F W fuel; in_trace Hin; decode; try discriminate Hurl;
      injection Hin as <- <-;
      repeat match goal with
        | H : readManifest _ _ _ = Val _ |- _ =>
            apply readManifest_fields in H;
            destruct H as (-> & -> & _ & -> & -> & _)
        end;
      simpl; (split; [find_event | repeat split; assumption]).
Qed.

(** C8, witness: the receiver of the sample world prints its URL before
    the transfer; the sender by URL gets the parsed host. *)
Lemma connection_url_handshake_witness :
  (exists after,
      run_trace default_flags free_world 0
      = ([EvSignal SIGPIPE SIG_IGN; EvInitializeFromFlags;
          EvReceiverInit sample_receiver_request sample_augmented_request;
          EvCout "wdt://localhost?id=generated-id"; EvEndl; EvFlush]
           ++ after)%list)
  /\ hostName sample_sender_request = "localhost".
Proof.
  split.
  - destruct (proj1 (connection_url_handshake default_flags free_world 0)
                sample_receiver_request sample_augmented_request)
      as (r & start & after & Htrace & _).
    + vm_compute. do 2 right. left. reflexivity.
    + split; [intros [H _]; discriminate H | discriminate].
    + exists after. exact Htrace.
  - destruct (proj2 (connection_url_handshake
                       (with_protocol_version 21 sender_by_url) free_world 0)
                sample_sender_request sample_sender_request)
      as (_ & _ & Hhost & _).
    + vm_compute. do 3 right. left. reflexivity.
    + reflexivity.
    + exact Hhost.
Defined.

(** ** The recovery id *)




(** ** Daemon mode *)

(** C7, counterexample to the claim as stated. A receiver run with
    run_as_daemon set whose init reports ERROR serves no transfer at all
    and exits with ERROR; with the flag unset the same run performs no
    transfer either. *)
Lemma daemon_not_reached :
  FLAGS_run_as_daemon (with_daemon true default_flags) = true
  /\ acts_as_receiver (run_trace (with_daemon true default_flags)
                                 blocked_world 5) = true
  /\ existsb is_transfer (run_trace (with_daemon true default_flags)
                                    blocked_world 5) = false
  /\ run_outcome (with_daemon true default_flags) blocked_world 5
     = Exited (errorCodeValue ERROR)
  /\ acts_as_receiver (run_trace default_flags blocked_world 5) = true
  /\ existsb is_transfer (run_trace default_flags blocked_world 5) = false
  /\ run_outcome default_flags blocked_world 5 = Exited (errorCodeValue ERROR).
Proof. repeat split. Qed.

(** C7, amended. In every receiver run that passes initialisation: with
    run_as_daemon set, main never calls transferAsync or finish but hands
    the receiver to runForever, which serves one transfer per round and
    has not ended after any number of rounds during which the abort
    checker kept quiet (always, when no abort timer was set up), and ends
    once the checker has fired, the process then exiting with what
    runForever returned; with the flag unset exactly one transfer is
    performed, by transferAsync and finish, and the process exits with
    the summary code of its report. *)
Theorem daemon_or_single (F : Flags) (W : World) (fuel : nat)
    (req aug : WdtTransferRequest) :
  In (EvReceiverInit req aug) (run_trace F W fuel) ->
  passes_init F aug ->
  (FLAGS_run_as_daemon F = true ->
   count is_single_transfer (run_trace F W fuel) = 0%nat
   /\ (exists r, In (EvRunForever r) (run_trace F W fuel)
                 /\ rcv_request r = aug)
   /\ (FLAGS_abort_after_seconds F <= 0 \/ (fuel <= abort_round W)%nat ->
       run_outcome F W fuel = StillRunning
       /\ count is_daemon_transfer (run_trace F W fuel) = fuel)
   /\ (0 < FLAGS_abort_after_seconds F -> (abort_round W < fuel)%nat ->
       run_outcome F W fuel = Exited (errorCodeValue (runForever_result W))
       /\ count is_daemon_transfer (run_trace F W fuel) = abort_round W))
  /\ (FLAGS_run_as_daemon F = false ->
      exists r,
        filter is_transfer (run_trace F W fuel)
        = [EvTransferAsync r;
           EvFinish r (receiver_summary W r (run_options F W fuel))]
        /\ rcv_request r = aug
        /\ run_outcome F W fuel
           = Exited (errorCodeValue
                       (receiver_summary W r (run_options F W fuel)))).
Proof.
  intros Hin [Hfew Herr].
  by_run F W fuel; in_trace Hin; decode; injection Hin as <- <-; try tauto.
  all: split; intros Hd; try congruence.
  all: try solve [the_receiver; split; [reflexivity | split; reflexivity]].
  all: match goal with
       | H : runForever_rounds _ _ _ _ 0 = (_, _) |- _ =>
           destruct (rounds_count _ _ _ _ _ _ H) as [Hquiet Hfired]
       end.
  all: split;
    [ unfold count; simpl;
      rewrite ?served_filter, ?served_filter_nil
        by (try assumption; try (intro; reflexivity));
      reflexivity
    | split; [the_receiver; split; [find_event | reflexivity] | split] ].
  all: unfold count; simpl;
    rewrite ?served_kept, ?served_kept_nil by assumption; simpl;
    rewrite ?app_nil_r.
  all: intros;
    try (let Hr := fresh "Hr" in
         let Hl := fresh "Hl" in
         destruct Hquiet as [Hr Hl];
         [ solve [left; reflexivity | right; lia] |]);
    try (let Hr := fresh "Hr" in
         let Hl := fresh "Hl" in
         destruct Hfired as [Hr Hl]; [reflexivity | assumption |]);
    try congruence; try (exfalso; lia);
    split; first [reflexivity | assumption].
Qed.

(** C7, witness: a daemon without abort timer is still running after 4
    rounds; with the timer firing in round 3 it has served 3 transfers. *)
Lemma daemon_or_single_witness :
  run_outcome (with_daemon true default_flags) free_world 4 = StillRunning
  /\ count is_daemon_transfer
       (run_trace (with_abort_after_seconds 5 (with_daemon true default_flags))
                  free_world 10)
     = 3%nat.
Proof.
  split.
  - destruct (daemon_or_single (with_daemon true default_flags) free_world 4
                sample_receiver_request sample_augmented_request)
      as [Hd _].
    + vm_compute. do 2 right. left. reflexivity.
    + split; [intros [H _]; discriminate H | discriminate].
    + destruct (Hd eq_refl) as (_ & _ & Hq & _).
      destruct Hq as [H _]; [left; simpl; lia | exact H].
  - destruct (daemon_or_single
                (with_abort_after_seconds 5 (with_daemon true default_flags))
                free_world 10
                sample_receiver_request sample_augmented_request)
      as [Hd _].
    + vm_compute. do 2 right. left. reflexivity.
    + split; [intros [H _]; discriminate H | discriminate].
    + destruct (Hd eq_refl) as (_ & _ & _ & Hf).
      destruct Hf as [_ H]; [simpl; lia | simpl; lia | exact H].
Defined.

(** ** The manifest *)

Lemma split_pieces_nonempty (d : ascii) (s : string) :
  split_pieces d s <> [].
Proof.
  destruct s as [|c rest]; simpl; [discriminate|].
  destruct (Ascii.eqb c d); [discriminate|].
  destruct (split_pieces d rest); discriminate.
Qed.

(** Splitting loses nothing: the pieces, delimiters put back, are the
    string. *)
Lemma split_pieces_join (d : ascii) (s : string) :
  join d (split_pieces d s) = s.
Proof.
  induction s as [|c rest IH]; simpl; [reflexivity|].
  pose proof (split_pieces_nonempty d rest) as Hne.
  destruct (Ascii.eqb c d) eqn:E.
  - apply Ascii.eqb_eq in E. subst c.
    destruct (split_pieces d rest) as [|p ps]; [contradiction|].
    simpl in *. rewrite IH. reflexivity.
  - destruct (split_pieces d rest) as [|p ps]; [contradiction|].
    simpl in *. destruct ps; rewrite <- IH; reflexivity.
Qed.

Lemma split_pieces_free (d : ascii) (s : string) :
  Forall (fun p => free_of d p = true) (split_pieces d s).
Proof.
  induction s as [|c rest IH]; simpl.
  - constructor; [reflexivity | constructor].
  - destruct (Ascii.eqb c d) eqn:E.
    + constructor; [reflexivity | exact IH].
    + destruct (split_pieces d rest) as [|p ps].
      * constructor; [simpl; rewrite E; reflexivity | constructor].
      * inversion IH; subst. constructor; [|assumption].
        simpl. rewrite E. assumption.
Qed.

Lemma split_pieces_of_free (d : ascii) (p : string) :
  free_of d p = true -> split_pieces d p = [p].
Proof.
  induction p as [|c rest IH]; simpl; intros H; [reflexivity|].
  apply andb_true_iff in H. destruct H as [Hc Hrest].
  apply negb_true_iff in Hc. rewrite Hc, (IH Hrest). reflexivity.
Qed.

Lemma split_pieces_app (d : ascii) (p rest : string) :
  free_of d p = true ->
  split_pieces d (p ++ String d rest) = p :: split_pieces d rest.
Proof.
  induction p as [|c p' IH]; simpl; intros H.
  - rewrite Ascii.eqb_refl. reflexivity.
  - apply andb_true_iff in H. destruct H as [Hc Hrest].
    apply negb_true_iff in Hc. rewrite Hc, (IH Hrest). reflexivity.
Qed.

(** The pieces are the only way to write the string as delimiter-free
    parts with the delimiter between them. *)
Lemma split_pieces_unique (d : ascii) (pieces : list string) :
  pieces <> [] ->
  Forall (fun p => free_of d p = true) pieces ->
  split_pieces d (join d pieces) = pieces.
Proof.
  induction pieces as [|p more IH]; intros Hne Hfree; [contradiction|].
  inversion Hfree as [|? ? Hp Hmore]; subst.
  destruct more as [|q more'].
  - simpl. apply split_pieces_of_free. exact Hp.
  - change (join d (p :: q :: more'))
      with (p ++ String d (join d (q :: more'))).
    rewrite split_pieces_app by exact Hp.
    rewrite IH; [reflexivity | discriminate | exact Hmore].
Qed.

(** [getlines] is what iterating [getline] until it fails yields. *)
Lemma getlines_getline (fin : string) :
  getlines fin
  = match getline fin with
    | None => []
    | Some (line, rest) => line :: getlines rest
    end.
Proof.
  induction fin as [|c rest IH]; simpl; [reflexivity|].
  destruct (Ascii.eqb c newline); [reflexivity|].
  rewrite IH. destruct (getline rest) as [[line rest']|]; reflexivity.
Qed.

(** What the loop body does with a line, by the number of non-empty
    fields. *)
Lemma manifestEntry_cases (conv : string -> option Z) (line : string) :
  match folly_split tab line true with
  | [] => manifestEntry conv line = Fatal ("Invalid input manifest: " ++ line)
  | [path] => manifestEntry conv line = Val (path, -1)
  | [path; size] =>
      manifestEntry conv line
      = match conv size with
        | Some n => Val (path, n)
        | None => Thrown
        end
  | _ :: _ :: _ :: _ =>
      manifestEntry conv line = Fatal ("Invalid input manifest: " ++ line)
  end.
Proof.
  unfold manifestEntry.
  destruct (folly_split tab line true) as [|p [|sz [|t more]]]; simpl;
    try reflexivity.
Qed.

(** A manifest is read to the end exactly when every line yields an
    entry; the entries are appended in the order of the lines. *)
Lemma readManifest_loop_accepts (conv : string -> option Z)
    (lines : list string) :
  forall req req',
    readManifest_loop conv lines req = Val req'
    <-> exists entries,
          Forall2 (fun l e => manifestEntry conv l = Val e) lines entries
          /\ req' = set_fileInfo (fileInfo req ++ entries)%list req.
Proof.
  induction lines as [|line more IH]; intros req req'; simpl.
  - split.
    + intros H. inversion H; subst. exists []. split; [constructor|].
      destruct req'; unfold set_fileInfo; simpl. rewrite app_nil_r.
      reflexivity.
    + intros (entries & HF & ->). inversion HF; subst.
      destruct req; unfold set_fileInfo; simpl. rewrite app_nil_r.
      reflexivity.
  - destruct (manifestEntry conv line) as [entry| | | |] eqn:E.
    + rewrite IH. split.
      * intros (entries & HF & ->). exists (entry :: entries).
        split; [constructor; assumption|].
        unfold set_fileInfo; simpl. rewrite <- app_assoc. reflexivity.
      * intros (entries & HF & ->). inversion HF as [|? e ? es He Hes]; subst.
        exists es. split; [exact Hes|].
        assert (e = entry) by congruence. subst e.
        unfold set_fileInfo; simpl. rewrite <- app_assoc. reflexivity.
    + split; [discriminate|]. intros (entries & HF & _).
      inversion HF; subst. congruence.
    + split; [discriminate|]. intros (entries & HF & _).
      inversion HF; subst. congruence.
    + split; [discriminate|]. intros (entries & HF & _).
      inversion HF; subst. congruence.
    + split; [discriminate|]. intros (entries & HF & _).
      inversion HF; subst. congruence.
Qed.

(** C4, counterexample to the claim as stated. The line a, tab, tab, 5
    has three tab-separated fields, the middle one empty; it is not
    rejected but read as the path a with size 5. *)
Lemma empty_fields_are_skipped :
  tab_fields line_with_empty_field = ["a"; EmptyString; "5"]
  /\ (2 < length (tab_fields line_with_empty_field))%nat
  /\ manifestEntry decimal_int64 line_with_empty_field = Val ("a", 5)
  /\ readManifest decimal_int64 line_with_empty_field
       (mkRequest EmptyString EmptyString 0 [] EmptyString [] OK)
     = Val (mkRequest EmptyString EmptyString 0 [] EmptyString [("a", 5)] OK).
Proof. repeat split; apply Nat.leb_le; reflexivity. Qed.

(** C4, amended. A manifest line is cut at the tabs and its empty fields
    are dropped.  A line with no field left (an empty line, or tabs
    only) or with more than two is rejected by a fatal error; a line with
    one field is a path of unknown size (-1); a line with two is a path
    and its size, and the program fails when the size does not convert.
    The manifest is read to its end exactly when every line yields an
    entry, and the entries are appended in the order of the lines.  The
    manifest is read only in sender mode, from stdin when the flag is "-"
    and from the named file otherwise. *)
Theorem manifest_format (F : Flags) (W : World) (fuel : nat) (line : string) :
  join tab (tab_fields line) = line
  /\ Forall (fun f => free_of tab f = true) (tab_fields line)
  /\ folly_split tab line true
     = filter (fun f => negb (empty f)) (tab_fields line)
  /\ match filter (fun f => negb (empty f)) (tab_fields line) with
     | [] =>
         manifestEntry (to_int64 W) line
         = Fatal ("Invalid input manifest: " ++ line)
     | [path] => manifestEntry (to_int64 W) line = Val (path, -1)
     | [path; size] =>
         manifestEntry (to_int64 W) line
         = match to_int64 W size with
           | Some n => Val (path, n)
           | None => Thrown
           end
     | _ :: _ :: _ :: _ =>
         manifestEntry (to_int64 W) line
         = Fatal ("Invalid input manifest: " ++ line)
     end
  /\ (forall fin req req',
         readManifest (to_int64 W) fin req = Val req'
         <-> exists entries,
               Forall2 (fun l e => manifestEntry (to_int64 W) l = Val e)
                       (getlines fin) entries
               /\ req' = set_fileInfo (fileInfo req ++ entries)%list req)
  /\ (forall src,
         In (EvReadManifest src) (run_trace F W fuel) ->
         acts_as_sender (run_trace F W fuel) = true
         /\ empty (FLAGS_manifest F) = false
         /\ src = if String.eqb (FLAGS_manifest F) "-"
                  then FromStdin else FromFile (FLAGS_manifest F))
  /\ (forall req processed,
         In (EvSenderInit req processed) (run_trace F W fuel) ->
         FLAGS_manifest F = "-" ->
         In (EvReadManifest FromStdin) (run_trace F W fuel)
         /\ exists req0, readManifest (to_int64 W) (cin W) req0 = Val req).
Proof.
  split; [apply split_pieces_join |].
  split; [apply split_pieces_free |].
  split; [reflexivity |].
  split; [apply (manifestEntry_cases (to_int64 W) line) |].
  split; [intros fin req req'; apply readManifest_loop_accepts |].
  split.
  - intros src Hin.
    by_run F W fuel; in_trace Hin; decode; injection Hin as <-;
      (split; [reflexivity | split; [assumption | reflexivity]]).
  - intros req processed Hin Hdash.
    by_run F W fuel; in_trace Hin; decode; injection Hin as <- <-;
      rewrite Hdash in *;
      repeat match goal with
        | H : empty "-" = true |- _ => discriminate H
        | H : String.eqb "-" "-" = false |- _ => discriminate H
        end;
      (split; [find_event | eexists; eassumption]).
Qed.

(** C4, witness: the sender reading a two-line manifest from stdin. *)
Lemma manifest_format_witness :
  In (EvReadManifest FromStdin)
     (run_trace sender_with_stdin_manifest manifest_world 0)
  /\ exists req0,
       readManifest decimal_int64 sample_manifest req0
       = Val sample_manifest_request.
Proof.
  destruct (manifest_format sender_with_stdin_manifest manifest_world 0
              EmptyString)
    as (_ & _ & _ & _ & _ & _ & H).
  destruct (H sample_manifest_request sample_manifest_request)
    as [Hstdin Hread].
  - vm_compute. do 3 right. left. reflexivity.
  - reflexivity.
  - split; [exact Hstdin | exact Hread].
Defined.

(** ** Sample runs, evaluated *)

Example getlines_sample :
  getlines ("a" ++ String newline (String newline "b"))
  = ["a"; EmptyString; "b"].
Proof. reflexivity. Qed.

Example getlines_final_newline :
  getlines ("a" ++ String newline EmptyString) = ["a"].
Proof. reflexivity. Qed.

Example empty_line_rejected :
  manifestEntry decimal_int64 EmptyString = Fatal "Invalid input manifest: ".
Proof. reflexivity. Qed.

Example three_fields_rejected :
  manifestEntry decimal_int64 ("a" ++ String tab ("1" ++ String tab "2"))
  = Fatal ("Invalid input manifest: "
             ++ "a" ++ String tab ("1" ++ String tab "2")).
Proof. reflexivity. Qed.

Example size_not_a_number :
  manifestEntry decimal_int64 ("a" ++ String tab "big") = Thrown.
Proof. reflexivity. Qed.

Example receiver_run_sample :
  map (fun e => match e with
                | EvCout text => text
                | _ => EmptyString
                end)
      (filter (fun e => match e with EvCout _ => true | _ => false end)
              (run_trace default_flags free_world 0))
  = ["wdt://localhost?id=generated-id"]
  /\ run_outcome default_flags free_world 0 = Exited 0.
Proof. split; reflexivity. Qed.

Example shortfall_ports_sample :
  ports (sample_receiver_init [22335; 22336; 22337] sample_receiver_request)
  = [22334; 22338; 22339; 22340; 22341].
Proof. reflexivity. Qed.

(* ================================================================== *)
(** * The manifest reader, further *)

Lemma string_app_assoc (a b c : string) : (a ++ b) ++ c = a ++ (b ++ c).
Proof.
  induction a as [|x a IH]; simpl; [reflexivity | rewrite IH; reflexivity].
Qed.

Lemma string_app_nil_r (a : string) : a ++ EmptyString = a.
Proof.
  induction a as [|x a IH]; simpl; [reflexivity | rewrite IH; reflexivity].
Qed.

Lemma getlines_nil (s : string) : getlines s = [] <-> s = EmptyString.
Proof.
  split; [| intros ->; reflexivity].
  destruct s as [|c rest]; [reflexivity|]. simpl.
  destruct (Ascii.eqb c newline); [discriminate|].
  destruct (getlines rest); discriminate.
Qed.

(** The lines of a stream are its pieces between newlines, but for the
    empty piece after a final newline. *)
Lemma getlines_split (s : string) :
  split_pieces newline s
  = if at_line_start s then (getlines s ++ [EmptyString])%list else getlines s.
Proof.
  induction s as [|c rest IH]; [reflexivity|].
  destruct rest as [|c' rest'].
  - simpl. destruct (Ascii.eqb c newline); reflexivity.
  - change (at_line_start (String c (String c' rest')))
      with (at_line_start (String c' rest')).
    change (split_pieces newline (String c (String c' rest')))
      with (if Ascii.eqb c newline
            then EmptyString :: split_pieces newline (String c' rest')
            else match split_pieces newline (String c' rest') with
                 | piece :: more => String c piece :: more
                 | [] => [String c EmptyString]
                 end).
    change (getlines (String c (String c' rest')))
      with (if Ascii.eqb c newline
            then EmptyString :: getlines (String c' rest')
            else match getlines (String c' rest') with
                 | line :: more => String c line :: more
                 | [] => [String c EmptyString]
                 end).
    rewrite IH.
    assert (Hne : getlines (String c' rest') <> [])
      by (rewrite getlines_nil; discriminate).
    destruct (getlines (String c' rest')) as [|l m]; [contradiction|].
    destruct (Ascii.eqb c newline), (at_line_start (String c' rest'));
      reflexivity.
Qed.

Lemma getlines_free (s : string) :
  Forall (fun line => free_of newline line = true) (getlines s).
Proof.
  pose proof (split_pieces_free newline s) as H.
  rewrite getlines_split in H.
  destruct (at_line_start s); [| exact H].
  apply Forall_app in H. apply H.
Qed.

Lemma join_snoc_empty (d : ascii) (l : list string) :
  l <> [] ->
  join d (l ++ [EmptyString]) = join d l ++ String d EmptyString.
Proof.
  induction l as [|p more IH]; intros Hne; [contradiction|].
  destruct more as [|q more'].
  - reflexivity.
  - change (join d ((p :: q :: more') ++ [EmptyString]))
      with (p ++ String d (join d ((q :: more') ++ [EmptyString]))).
    rewrite IH by discriminate.
    change (join d (p :: q :: more'))
      with (p ++ String d (join d (q :: more'))).
    rewrite string_app_assoc. reflexivity.
Qed.

(** X6. The lines [std::getline] yields hold no newline, and written one
    after the other with newlines between them they are the stream again,
    but for its final newline. *)
Theorem getlines_round_trip (s : string) :
  Forall (fun line => free_of newline line = true) (getlines s)
  /\ join newline (getlines s)
       ++ (if at_line_start s && negb (empty s)
           then String newline EmptyString else EmptyString)
     = s.
Proof.
  split; [apply getlines_free |].
  pose proof (split_pieces_join newline s) as H.
  rewrite getlines_split in H.
  destruct (at_line_start s) eqn:E; simpl.
  - destruct s as [|c rest]; [reflexivity|]. simpl.
    rewrite join_snoc_empty in H; [exact H|].
    rewrite getlines_nil. discriminate.
  - rewrite string_app_nil_r. exact H.
Qed.

(** A stream that stands at a line start can be followed by another:
    the lines are those of the first, then those of the second. *)
Lemma getlines_app (a b : string) :
  at_line_start a = true ->
  getlines (a ++ b) = (getlines a ++ getlines b)%list.
Proof.
  induction a as [|c rest IH]; intros H; [reflexivity|].
  destruct rest as [|c' rest'].
  - simpl in H. simpl. rewrite H. reflexivity.
  - change (at_line_start (String c (String c' rest')))
      with (at_line_start (String c' rest')) in H.
    specialize (IH H).
    change (getlines (String c (String c' rest') ++ b))
      with (if Ascii.eqb c newline
            then EmptyString :: getlines (String c' rest' ++ b)
            else match getlines (String c' rest' ++ b) with
                 | line :: more => String c line :: more
                 | [] => [String c EmptyString]
                 end).
    change (getlines (String c (String c' rest')))
      with (if Ascii.eqb c newline
            then EmptyString :: getlines (String c' rest')
            else match getlines (String c' rest') with
                 | line :: more => String c line :: more
                 | [] => [String c EmptyString]
                 end).
    rewrite IH.
    assert (Hne : getlines (String c' rest') <> [])
      by (rewrite getlines_nil; discriminate).
    destruct (getlines (String c' rest')) as [|l m]; [contradiction|].
    destruct (Ascii.eqb c newline); reflexivity.
Qed.

Lemma getlines_newline_at_end (s : string) :
  at_line_start s = false ->
  getlines (s ++ String newline EmptyString) = getlines s.
Proof.
  induction s as [|c rest IH]; intros H; [discriminate H|].
  destruct rest as [|c' rest'].
  - simpl in H. simpl. rewrite H. reflexivity.
  - change (at_line_start (String c (String c' rest')))
      with (at_line_start (String c' rest')) in H.
    specialize (IH H).
    change (getlines (String c (String c' rest') ++ String newline EmptyString))
      with (if Ascii.eqb c newline
            then EmptyString
                   :: getlines (String c' rest' ++ String newline EmptyString)
            else match getlines (String c' rest' ++ String newline EmptyString)
                 with
                 | line :: more => String c line :: more
                 | [] => [String c EmptyString]
                 end).
    rewrite IH. reflexivity.
Qed.

Lemma readManifest_loop_app (conv : string -> option Z) (l1 l2 : list string) :
  forall req,
    readManifest_loop conv (l1 ++ l2) req
    = match readManifest_loop conv l1 req with
      | Val r => readManifest_loop conv l2 r
      | other => other
      end.
Proof.
  induction l1 as [|line more IH]; intros req; simpl; [reflexivity|].
  destruct (manifestEntry conv line); try reflexivity. apply IH.
Qed.

(** X4. The newline after the last line of a manifest is optional. *)
Theorem final_newline_is_optional (conv : string -> option Z) (fin : string)
    (req : WdtTransferRequest) :
  at_line_start fin = false ->
  readManifest conv (fin ++ String newline EmptyString) req
  = readManifest conv fin req.
Proof.
  intros H. unfold readManifest. rewrite getlines_newline_at_end by exact H.
  reflexivity.
Qed.

(** X5. Reading two manifests one after the other, the first ending
    with a newline, is reading the first and then, if that went well, the
    second into the request the first left. *)
Theorem readManifest_concat (conv : string -> option Z) (a b : string)
    (req : WdtTransferRequest) :
  at_line_start a = true ->
  readManifest conv (a ++ b) req
  = match readManifest conv a req with
    | Val r => readManifest conv b r
    | other => other
    end.
Proof.
  intros H. unfold readManifest. rewrite getlines_app by exact H.
  apply readManifest_loop_app.
Qed.

(** X3. Reading stops at the first line that yields no entry: the
    outcome is the failure of that line (the fatal error naming it, or
    the conversion exception), whatever follows it. *)
Theorem readManifest_stops_at_first_bad_line (conv : string -> option Z)
    (good : list string) (bad : string) (rest : list string)
    (req r : WdtTransferRequest) :
  readManifest_loop conv good req = Val r ->
  (forall entry, manifestEntry conv bad <> Val entry) ->
  readManifest_loop conv (good ++ bad :: rest) req
  = failure_of (manifestEntry conv bad)
  /\ (readManifest_loop conv (good ++ bad :: rest) req
      = Fatal ("Invalid input manifest: " ++ bad)
      \/ readManifest_loop conv (good ++ bad :: rest) req = Thrown).
Proof.
  intros Hgood Hbad. rewrite readManifest_loop_app, Hgood. simpl.
  unfold manifestEntry in *.
  destruct (Nat.eqb (length (folly_split tab bad true)) 0
            || Nat.ltb 2 (length (folly_split tab bad true))).
  - split; [reflexivity | left; reflexivity].
  - destruct (if Nat.ltb 1 (length (folly_split tab bad true))
              then conv (nth 1 (folly_split tab bad true) EmptyString)
              else Some (-1)) as [n|].
    + exfalso. eapply Hbad. reflexivity.
    + split; [reflexivity | right; reflexivity].
Qed.

Lemma split_pieces_free_other (c d : ascii) (s : string) :
  free_of c s = true ->
  Forall (fun p => free_of c p = true) (split_pieces d s).
Proof.
  induction s as [|a rest IH]; simpl; intros H.
  - constructor; [reflexivity | constructor].
  - apply andb_true_iff in H. destruct H as [Ha Hrest].
    specialize (IH Hrest).
    destruct (Ascii.eqb a d).
    + constructor; [reflexivity | exact IH].
    + destruct (split_pieces d rest) as [|p ps].
      * constructor; [simpl; rewrite Ha; reflexivity | constructor].
      * inversion IH; subst. constructor; [|assumption].
        simpl. rewrite Ha. assumption.
Qed.

(** What an accepted line gives: a non-empty field of the line as path,
    and as size -1 or the conversion of another non-empty field. *)
Lemma manifestEntry_Val (conv : string -> option Z) (line path : string)
    (size : Z) :
  manifestEntry conv line = Val (path, size) ->
  In path (tab_fields line)
  /\ empty path = false
  /\ (size = -1
      \/ exists text,
           In text (tab_fields line) /\ empty text = false
           /\ conv text = Some size).
Proof.
  intros H. pose proof (manifestEntry_cases conv line) as Hc.
  assert (Hin : forall f, In f (folly_split tab line true) ->
                          In f (tab_fields line) /\ empty f = false).
  { intros f Hf. unfold folly_split in Hf. apply filter_In in Hf.
    destruct Hf as [H1 H2]. apply negb_true_iff in H2. split; assumption. }
  destruct (folly_split tab line true) as [|p [|sz [|t more]]].
  - rewrite Hc in H. discriminate H.
  - rewrite Hc in H. injection H as <- <-.
    destruct (Hin p (or_introl eq_refl)) as [H1 H2].
    split; [exact H1 | split; [exact H2 | left; reflexivity]].
  - rewrite Hc in H. destruct (conv sz) as [n|] eqn:E; [|discriminate H].
    injection H as <- <-.
    destruct (Hin p (or_introl eq_refl)) as [H1 H2].
    destruct (Hin sz (or_intror (or_introl eq_refl))) as [H3 H4].
    split; [exact H1 | split; [exact H2 | right]].
    exists sz. split; [exact H3 | split; [exact H4 | exact E]].
  - rewrite Hc in H. discriminate H.
Qed.

Lemma tab_field_plain (line f : string) :
  free_of newline line = true ->
  In f (tab_fields line) -> empty f = false ->
  plain_field f = true.
Proof.
  intros Hline Hin Hne. unfold plain_field. rewrite Hne. simpl.
  pose proof (split_pieces_free tab line) as H1.
  pose proof (split_pieces_free_other newline tab line Hline) as H2.
  rewrite Forall_forall in H1, H2.
  rewrite (H1 f Hin), (H2 f Hin). reflexivity.
Qed.

(** X1. A manifest read to its end adds exactly one entry per line to
    the file list, behind the entries the request already had. *)
Theorem readManifest_counts (conv : string -> option Z) (fin : string)
    (req req' : WdtTransferRequest) :
  readManifest conv fin req = Val req' ->
  length (fileInfo req')
  = (length (fileInfo req) + length (getlines fin))%nat
  /\ firstn (length (fileInfo req)) (fileInfo req') = fileInfo req.
Proof.
  intros H. apply readManifest_loop_accepts in H.
  destruct H as (entries & HF & ->). simpl.
  rewrite length_app, (Forall2_length HF). split; [reflexivity|].
  rewrite firstn_app, Nat.sub_diag, firstn_all. simpl. apply app_nil_r.
Qed.

(** X2. Every entry a manifest adds has a path that is not empty and
    holds neither tab nor newline, and a size that is -1 or what the
    conversion made of such a field. *)
Theorem manifest_entries_are_plain (conv : string -> option Z) (fin : string)
    (req req' : WdtTransferRequest) :
  readManifest conv fin req = Val req' ->
  exists entries,
    fileInfo req' = (fileInfo req ++ entries)%list
    /\ Forall (fun e =>
                 plain_field (fst e) = true
                 /\ (snd e = -1
                     \/ exists text,
                          plain_field text = true /\ conv text = Some (snd e)))
              entries.
Proof.
  intros H. apply readManifest_loop_accepts in H.
  destruct H as (entries & HF & ->). exists entries. split; [reflexivity|].
  pose proof (getlines_free fin) as Hfree.
  induction HF as [|line [path size] lines es He _ IH]; [constructor|].
  inversion Hfree as [|? ? Hline Hrest]; subst.
  constructor; [| apply IH; exact Hrest].
  apply manifestEntry_Val in He.
  destruct He as (Hin & Hne & Hsize). simpl. split.
  - apply (tab_field_plain line); assumption.
  - destruct Hsize as [-> | (text & Ht1 & Ht2 & Ht3)]; [left; reflexivity|].
    right. exists text. split; [| exact Ht3].
    apply (tab_field_plain line); assumption.
Qed.

Lemma getlines_line (line rest : string) :
  free_of newline line = true ->
  getlines (line ++ String newline rest) = line :: getlines rest.
Proof.
  induction line as [|c l IH]; intros H; [reflexivity|].
  simpl in H. apply andb_true_iff in H. destruct H as [Hc Hl].
  apply negb_true_iff in Hc. simpl. rewrite Hc, (IH Hl). reflexivity.
Qed.

Lemma getlines_unlines (lines : list string) :
  Forall (fun line => free_of newline line = true) lines ->
  getlines (unlines lines) = lines.
Proof.
  induction 1 as [|line more Hline _ IH]; [reflexivity|].
  simpl. rewrite getlines_line by exact Hline. rewrite IH. reflexivity.
Qed.

Lemma free_of_app (c : ascii) (a b : string) :
  free_of c (a ++ b) = free_of c a && free_of c b.
Proof.
  induction a as [|x a IH]; simpl; [reflexivity|].
  rewrite IH. apply andb_assoc.
Qed.

Lemma plain_field_parts (f : string) :
  plain_field f = true ->
  empty f = false /\ free_of tab f = true /\ free_of newline f = true.
Proof.
  unfold plain_field. intros H.
  apply andb_true_iff in H. destruct H as [H H3].
  apply andb_true_iff in H. destruct H as [H1 H2].
  apply negb_true_iff in H1. repeat split; assumption.
Qed.

Lemma row_line_free (conv : string -> option Z) (row : manifest_row) :
  row_ok conv row -> free_of newline (row_line row) = true.
Proof.
  destruct row as [path [[text size]|]]; intros [Hp Hs]; simpl in *.
  - destruct Hs as [Ht _].
    apply plain_field_parts in Hp. apply plain_field_parts in Ht.
    rewrite free_of_app. simpl.
    destruct Hp as (_ & _ & ->). destruct Ht as (_ & _ & ->). reflexivity.
  - apply plain_field_parts in Hp. apply Hp.
Qed.

Lemma manifestEntry_row (conv : string -> option Z) (row : manifest_row) :
  row_ok conv row ->
  manifestEntry conv (row_line row) = Val (row_entry row).
Proof.
  destruct row as [path [[text size]|]]; intros [Hp Hs]; simpl in *.
  - destruct Hs as [Ht Hconv].
    apply plain_field_parts in Hp. destruct Hp as (Hp1 & Hp2 & _).
    apply plain_field_parts in Ht. destruct Ht as (Ht1 & Ht2 & _).
    pose proof (manifestEntry_cases conv (path ++ String tab text)) as Hc.
    unfold folly_split in Hc.
    rewrite split_pieces_app in Hc by exact Hp2.
    rewrite split_pieces_of_free in Hc by exact Ht2.
    simpl in Hc. rewrite Hp1, Ht1 in Hc. simpl in Hc.
    rewrite Hconv in Hc. exact Hc.
  - apply plain_field_parts in Hp. destruct Hp as (Hp1 & Hp2 & _).
    pose proof (manifestEntry_cases conv path) as Hc.
    unfold folly_split in Hc.
    rewrite split_pieces_of_free in Hc by exact Hp2.
    simpl in Hc. rewrite Hp1 in Hc. simpl in Hc. exact Hc.
Qed.

(** X7. A manifest written row by row, the path, then a tab and the
    size when there is one, then a newline, is read back as the rows:
    the paths with their sizes, -1 where none was written, in order. *)
Theorem written_manifest_is_read_back (conv : string -> option Z)
    (rows : list manifest_row) (req : WdtTransferRequest) :
  Forall (row_ok conv) rows ->
  readManifest conv (unlines (map row_line rows)) req
  = Val (set_fileInfo (fileInfo req ++ map row_entry rows)%list req).
Proof.
  intros Hrows. unfold readManifest.
  rewrite getlines_unlines.
  - apply readManifest_loop_accepts. exists (map row_entry rows).
    split; [| reflexivity].
    induction Hrows as [|row more Hrow _ IH]; simpl; constructor.
    + apply manifestEntry_row. exact Hrow.
    + exact IH.
  - induction Hrows as [|row more Hrow _ IH]; simpl; constructor.
    + apply (row_line_free conv). exact Hrow.
    + exact IH.
Qed.

(** X1, witness. *)
Lemma readManifest_counts_witness :
  length (fileInfo sample_manifest_request)
  = (length (fileInfo sample_receiver_request)
     + length (getlines sample_manifest))%nat.
Proof.
  apply (readManifest_counts decimal_int64 sample_manifest
           (set_hostName "receiver.example" sample_receiver_request)
           sample_manifest_request).
  reflexivity.
Defined.

(** X2, witness. *)
Lemma manifest_entries_are_plain_witness :
  exists entries,
    fileInfo sample_manifest_request = ([] ++ entries)%list
    /\ Forall (fun e =>
                 plain_field (fst e) = true
                 /\ (snd e = -1
                     \/ exists text,
                          plain_field text = true
                          /\ decimal_int64 text = Some (snd e)))
              entries.
Proof.
  apply (manifest_entries_are_plain decimal_int64 sample_manifest
           (set_hostName "receiver.example" sample_receiver_request)
           sample_manifest_request).
  reflexivity.
Defined.

(** X3, witness: an empty line between two good ones. *)
Lemma readManifest_stops_at_first_bad_line_witness :
  readManifest_loop decimal_int64
    (["x/y" ++ String tab "12"] ++ EmptyString :: ["z"]) blank_request
  = Fatal "Invalid input manifest: ".
Proof.
  destruct (readManifest_stops_at_first_bad_line decimal_int64
              ["x/y" ++ String tab "12"] EmptyString ["z"] blank_request
              (set_fileInfo [("x/y", 12)] blank_request))
    as [H _].
  - reflexivity.
  - intros entry H. discriminate H.
  - rewrite H. reflexivity.
Defined.

(** X4, witness. *)
Lemma final_newline_is_optional_witness :
  readManifest decimal_int64
    (sample_manifest_open ++ String newline EmptyString) blank_request
  = readManifest decimal_int64 sample_manifest_open blank_request.
Proof.
  apply (final_newline_is_optional decimal_int64 sample_manifest_open
           blank_request).
  reflexivity.
Defined.

(** X5, witness: the sample manifest read twice. *)
Lemma readManifest_concat_witness :
  readManifest decimal_int64 (sample_manifest ++ sample_manifest) blank_request
  = Val (set_fileInfo [("x/y", 12); ("z", -1); ("x/y", 12); ("z", -1)]
                      blank_request).
Proof.
  rewrite (readManifest_concat decimal_int64 sample_manifest sample_manifest
             blank_request eq_refl).
  reflexivity.
Defined.

(** X7, witness. *)
Lemma written_manifest_is_read_back_witness :
  readManifest decimal_int64 (unlines (map row_line sample_rows)) blank_request
  = Val (set_fileInfo [("x/y", 12); ("z", -1)] blank_request).
Proof.
  apply (written_manifest_is_read_back decimal_int64 sample_rows
           blank_request).
  repeat constructor.
Defined.

(** * The run, further *)


(** Reading a manifest ends: with the request, a fatal error or an
    exception. *)
Lemma readManifest_ends (conv : string -> option Z) (fin : string)
    (req : WdtTransferRequest) :
  readManifest conv fin req <> Running
  /\ forall code, readManifest conv fin req <> Return code.
Proof.
  unfold readManifest. revert req.
  induction (getlines fin) as [|line more IH]; intros req; simpl.
  - split; [discriminate | intros code; discriminate].
  - unfold manifestEntry.
    destruct (Nat.eqb (length (folly_split tab line true)) 0
              || Nat.ltb 2 (length (folly_split tab line true)));
      [split; [discriminate | intros code; discriminate] |].
    destruct (if Nat.ltb 1 (length (folly_split tab line true))
              then conv (nth 1 (folly_split tab line true) EmptyString)
              else Some (-1));
      [apply IH | split; [discriminate | intros code; discriminate]].
Qed.

Ltac manifest_ends :=
  match goal with
  | H : readManifest ?c ?f ?r = Running |- _ =>
      destruct (proj1 (readManifest_ends c f r) H)
  | H : readManifest ?c ?f ?r = Return ?code |- _ =>
      destruct (proj2 (readManifest_ends c f r) code H)
  end.

Lemma last_cons_snoc (A : Type) (a x d : A) (l : list A) :
  last (a :: (l ++ [x])%list) d = x.
Proof.
  revert a. induction l as [|b l IH]; intros a; [reflexivity|].
  change (last (a :: ((b :: l) ++ [x])%list) d)
    with (last (b :: (l ++ [x])%list) d).
  apply IH.
Qed.



(** X9. With print_options set the program prints the options and
    exits with 0, whatever the other flags say: no log is opened, no URL
    parsed, no receiver or sender built, and the options are those the
    flags gave. *)
Theorem print_options_only_prints (F : Flags) (W : World) (fuel : nat) :
  FLAGS_print_options F = true ->
  run_trace F W fuel
  = [EvSignal SIGPIPE SIG_IGN; EvInitializeFromFlags; EvPrintOptions]
  /\ run_outcome F W fuel = Exited 0
  /\ run_options F W fuel = flag_options W.
Proof.
  intros H. by_run F W fuel; try discriminate H. repeat split.
Qed.

(** X9, witness. *)
Lemma print_options_only_prints_witness :
  run_outcome (with_print_options true sender_bad_url) blocked_world 0
  = Exited 0.
Proof.
  apply (print_options_only_prints (with_print_options true sender_bad_url)
           blocked_world 0 eq_refl).
Defined.

(** X10. A receiver whose init reports ERROR exits with ERROR right
    after init, whatever the daemon, recovery and fewer-ports flags say:
    no URL is printed, no abort timer armed, nothing transferred, and the
    options are left as configured. *)
Theorem init_error_stops_the_receiver (F : Flags) (W : World) (fuel : nat)
    (req aug : WdtTransferRequest) :
  In (EvReceiverInit req aug) (run_trace F W fuel) ->
  errorCode aug = ERROR ->
  run_trace F W fuel
  = [EvSignal SIGPIPE SIG_IGN; EvInitializeFromFlags; EvReceiverInit req aug]
  /\ run_outcome F W fuel = Exited (errorCodeValue ERROR)
  /\ run_options F W fuel = flag_options W.
Proof.
  intros Hin Herr.
  by_run F W fuel; in_trace Hin; decode; injection Hin as <- <-;
    try congruence; repeat split.
Qed.

(** X10, witness: no port can be bound. *)
Lemma init_error_stops_the_receiver_witness :
  run_outcome (with_daemon true (with_recovery_id "resume-1" default_flags))
              blocked_world 3
  = Exited (errorCodeValue ERROR).
Proof.
  destruct (init_error_stops_the_receiver
              (with_daemon true (with_recovery_id "resume-1" default_flags))
              blocked_world 3 sample_receiver_request
              (receiver_init blocked_world sample_receiver_request))
    as (_ & H & _).
  - vm_compute. do 2 right. left. reflexivity.
  - reflexivity.
  - exact H.
Defined.

(** X11. The object that transfers carries an abort checker exactly
    when abort_after_seconds is positive, receiver and sender alike; and
    the timer is armed in exactly the runs that start a transfer with a
    positive abort_after_seconds. *)
Theorem abort_checker_iff_positive (F : Flags) (W : World) (fuel : nat) :
  (forall r,
      In (EvTransferAsync r) (run_trace F W fuel)
      \/ In (EvRunForever r) (run_trace F W fuel) ->
      rcv_abortChecker r = (0 <? FLAGS_abort_after_seconds F))
  /\ (forall s summary,
         In (EvSenderTransfer s summary) (run_trace F W fuel) ->
         snd_abortChecker s = (0 <? FLAGS_abort_after_seconds F))
  /\ existsb is_abort_setup (run_trace F W fuel)
     = (0 <? FLAGS_abort_after_seconds F)
       && existsb is_transfer (run_trace F W fuel).
Proof.
  split; [| split].
  - intros r Hin.
    by_run F W fuel; destruct Hin as [Hin | Hin]; in_trace Hin; decode;
      injection Hin as <-; simpl; symmetry;
      first [apply Z.ltb_lt; assumption | apply Z.ltb_ge; assumption].
  - intros s summary Hin.
    by_run F W fuel; in_trace Hin; decode;
      injection Hin as <- <-; simpl; symmetry;
      first [apply Z.ltb_lt; assumption | apply Z.ltb_ge; assumption].
  - by_run F W fuel; simpl;
      rewrite ?existsb_app, ?served_existsb
        by (try assumption; try (intro; reflexivity));
      simpl; decode; rewrite ?andb_false_r; try reflexivity;
      symmetry; rewrite ?andb_true_r;
      first [apply Z.ltb_lt; assumption | apply Z.ltb_ge; assumption].
Qed.

(** X11, witness. *)
Lemma abort_checker_iff_positive_witness :
  existsb is_abort_setup
    (run_trace (with_abort_after_seconds 5 default_flags) free_world 0)
  = true.
Proof.
  rewrite (proj2 (proj2 (abort_checker_iff_positive
                           (with_abort_after_seconds 5 default_flags)
                           free_world 0))).
  reflexivity.
Defined.

Lemma served_count (f : Event -> bool) (served rest : list Event) :
  Forall (fun e => is_daemon_transfer e = true) served ->
  (forall n, f (EvDaemonTransfer n) = false) ->
  count f (served ++ rest) = count f rest.
Proof.
  intros Hs Hf. unfold count. rewrite served_filter by assumption.
  reflexivity.
Qed.

Lemma last_cons_cons (A : Type) (a b d : A) (l : list A) :
  last (a :: b :: l) d = last (b :: l) d.
Proof. reflexivity. Qed.

(** X12. cancelAbort is called at most once, as the last thing main
    does before it returns after a transfer; a run that armed the abort
    timer and exits has called it. *)
Theorem cancelAbort_closes_the_run (F : Flags) (W : World) (fuel : nat) :
  (count is_cancel (run_trace F W fuel) <= 1)%nat
  /\ (In EvCancelAbort (run_trace F W fuel) ->
      last (run_trace F W fuel) EvEndl = EvCancelAbort
      /\ existsb is_transfer (run_trace F W fuel) = true
      /\ exists code, run_outcome F W fuel = Exited code)
  /\ (forall seconds code,
         In (EvSetAbortChecker seconds) (run_trace F W fuel) ->
         run_outcome F W fuel = Exited code ->
         In EvCancelAbort (run_trace F W fuel)).
Proof.
  split; [| split].
  - by_run F W fuel; unfold count; simpl;
      rewrite ?served_filter, ?served_filter_nil
        by (try assumption; try (intro; reflexivity));
      simpl; lia.
  - intros Hin.
    by_run F W fuel; in_trace Hin;
      (split;
       [ repeat rewrite last_cons_cons; rewrite ?last_cons_snoc; reflexivity
       | split; [reflexivity | eexists; reflexivity] ]).
  - intros seconds code Hin Hout.
    by_run F W fuel; in_trace Hin; try discriminate Hout; find_event.
Qed.

(** X12, witness: a receiver with the abort timer armed. *)
Lemma cancelAbort_closes_the_run_witness :
  last (run_trace (with_abort_after_seconds 5 default_flags) free_world 0)
       EvEndl
  = EvCancelAbort.
Proof.
  destruct (cancelAbort_closes_the_run
              (with_abort_after_seconds 5 default_flags) free_world 0)
    as (_ & _ & Harmed).
  destruct (cancelAbort_closes_the_run
              (with_abort_after_seconds 5 default_flags) free_world 0)
    as (_ & Hlast & _).
  apply Hlast.
  apply (Harmed 5 0).
  - vm_compute. do 6 right. left. reflexivity.
  - reflexivity.
Defined.



(** X14. main never changes the ports of the global options and never
    switches download resumption off: after a run the options are those
    the flags gave, or those with download resumption switched on, which
    happens only in log-parsing mode and in a receiver with a recovery
    id; a sender leaves them as they are. *)
Theorem options_only_gain_resumption (F : Flags) (W : World) (fuel : nat) :
  (run_options F W fuel = flag_options W
   \/ (run_options F W fuel
       = set_enable_download_resumption true (flag_options W)
       /\ (FLAGS_parse_transfer_log F = true
           \/ (empty (FLAGS_recovery_id F) = false
               /\ acts_as_receiver (run_trace F W fuel) = true))))
  /\ (acts_as_sender (run_trace F W fuel) = true ->
      run_options F W fuel = flag_options W).
Proof.
  split.
  - by_run F W fuel; decode;
      first [ left; reflexivity
            | right; split; [reflexivity |];
              first [ left; reflexivity
                    | right; split; [assumption | reflexivity] ] ].
  - intros Hs.
    by_run F W fuel; try reflexivity;
      unfold acts_as_sender in Hs; simpl in Hs;
      rewrite ?existsb_app, ?served_existsb in Hs
        by (try assumption; try (intro; reflexivity));
      simpl in Hs; discriminate Hs.
Qed.

(** X14, witness: a sender with a recovery id. *)
Lemma options_only_gain_resumption_witness :
  run_options (with_recovery_id "resume-1" sender_by_destination) free_world 0
  = flag_options free_world.
Proof.
  apply (options_only_gain_resumption
           (with_recovery_id "resume-1" sender_by_destination) free_world 0).
  reflexivity.
Defined.

(** X15. When connection_url is given, the destination and
    transfer_id flags count for nothing: the run is the same whatever
    they hold. *)
Theorem connection_url_overrides_flags (F : Flags) (W : World) (fuel : nat)
    (dest id : string) :
  empty (FLAGS_connection_url F) = false ->
  main (with_destination dest (with_transfer_id id F)) W fuel = main F W fuel.
Proof.
  intros Hurl.
  unfold main, main_body, makeRequest, with_destination, with_transfer_id.
  cbn [FLAGS_run_as_daemon FLAGS_directory FLAGS_manifest FLAGS_destination
       FLAGS_parse_transfer_log FLAGS_transfer_id FLAGS_protocol_version
       FLAGS_connection_url FLAGS_abort_after_seconds FLAGS_recovery_id
       FLAGS_treat_fewer_port_as_error FLAGS_print_options
       FLAGS_exit_on_bad_flags].
  rewrite Hurl, !andb_false_r.
  unfold parseTransferLog, senderMode, setUpAbort.
  reflexivity.
Qed.

(** X15, witness. *)
Lemma connection_url_overrides_flags_witness :
  main (with_destination "elsewhere.example"
          (with_transfer_id "other-id" sender_by_url)) free_world 0
  = main sender_by_url free_world 0.
Proof.
  apply (connection_url_overrides_flags sender_by_url free_world 0).
  reflexivity.
Defined.

(** X16. Flags of the other side count for nothing: a sender runs the
    same whatever run_as_daemon, recovery_id and
    treat_fewer_port_as_error hold, and a receiver the same whatever
    manifest holds. *)
Theorem flags_of_the_other_side (F : Flags) (W : World) (fuel : nat) :
  (empty (FLAGS_destination F) && empty (FLAGS_connection_url F) = false ->
   forall daemon id treat,
     main (with_daemon daemon
             (with_recovery_id id
                (with_treat_fewer_port_as_error treat F))) W fuel
     = main F W fuel)
  /\ (empty (FLAGS_destination F) && empty (FLAGS_connection_url F) = true ->
      forall manifest, main (with_manifest manifest F) W fuel = main F W fuel).
Proof.
  split.
  - intros Hside daemon id treat.
    unfold main, main_body, makeRequest, with_daemon, with_recovery_id,
      with_treat_fewer_port_as_error.
    cbn [FLAGS_run_as_daemon FLAGS_directory FLAGS_manifest FLAGS_destination
         FLAGS_parse_transfer_log FLAGS_transfer_id FLAGS_protocol_version
         FLAGS_connection_url FLAGS_abort_after_seconds FLAGS_recovery_id
         FLAGS_treat_fewer_port_as_error FLAGS_print_options
         FLAGS_exit_on_bad_flags].
    rewrite Hside.
    unfold parseTransferLog, senderMode, setUpAbort.
    reflexivity.
  - intros Hside manifest.
    unfold main, main_body, makeRequest, with_manifest.
    cbn [FLAGS_run_as_daemon FLAGS_directory FLAGS_manifest FLAGS_destination
         FLAGS_parse_transfer_log FLAGS_transfer_id FLAGS_protocol_version
         FLAGS_connection_url FLAGS_abort_after_seconds FLAGS_recovery_id
         FLAGS_treat_fewer_port_as_error FLAGS_print_options
         FLAGS_exit_on_bad_flags].
    rewrite Hside.
    unfold parseTransferLog, receiverMode, runForever, setUpAbort.
    reflexivity.
Qed.

(** X16, witness. *)
Lemma flags_of_the_other_side_witness :
  main (with_daemon true
          (with_recovery_id "resume-1"
             (with_treat_fewer_port_as_error true sender_by_destination)))
       free_world 0
  = main sender_by_destination free_world 0
  /\ main (with_manifest "files.txt" default_flags) free_world 0
     = main default_flags free_world 0.
Proof.
  split.
  - apply (proj1 (flags_of_the_other_side sender_by_destination free_world 0)).
    reflexivity.
  - apply (proj2 (flags_of_the_other_side default_flags free_world 0)).
    reflexivity.
Defined.

Lemma served_passes (f : Event -> bool) (served rest : list Event) :
  Forall (fun e => is_daemon_transfer e = true) served ->
  (forall n, f (EvDaemonTransfer n) = true) ->
  filter f (served ++ rest) = (served ++ filter f rest)%list.
Proof.
  intros Hs Hf. induction Hs as [|e l He _ IH]; simpl; [reflexivity|].
  destruct e; try discriminate He. rewrite Hf, IH. reflexivity.
Qed.

Lemma served_passes_nil (f : Event -> bool) (served : list Event) :
  Forall (fun e => is_daemon_transfer e = true) served ->
  (forall n, f (EvDaemonTransfer n) = true) ->
  filter f served = served.
Proof.
  intros Hs Hf. rewrite <- (app_nil_r served) at 1.
  rewrite served_passes by assumption. simpl. apply app_nil_r.
Qed.

Lemma readManifest_empty (conv : string -> option Z)
    (req : WdtTransferRequest) :
  readManifest conv EmptyString req = Val req.
Proof. reflexivity. Qed.

(** X17. A manifest that holds nothing, be it an empty stdin, an empty
    file or a file that cannot be opened, is the same as no manifest: the
    run ends the same way and, but for the reading itself, makes the same
    calls; no error is raised for the missing file. *)
Theorem empty_manifest_is_no_manifest (F : Flags) (W : World) (fuel : nat) :
  (FLAGS_manifest F <> "-" -> file W (FLAGS_manifest F) = None ->
   manifest_content F W = EmptyString)
  /\ (manifest_content F W = EmptyString ->
      run_outcome F W fuel = run_outcome (with_manifest EmptyString F) W fuel
      /\ filter (fun e => negb (is_manifest_read e)) (run_trace F W fuel)
         = run_trace (with_manifest EmptyString F) W fuel
      /\ run_options F W fuel
         = run_options (with_manifest EmptyString F) W fuel).
Proof.
  unfold manifest_content. split.
  - intros Hdash Hfile. rewrite Hfile.
    destruct (String.eqb_spec (FLAGS_manifest F) "-"); [contradiction|].
    reflexivity.
  - intros Hcontent.
    unfold run_outcome, run_trace, run_options, with_manifest.
    unfold_main.
    cbn [FLAGS_run_as_daemon FLAGS_directory FLAGS_manifest FLAGS_destination
         FLAGS_parse_transfer_log FLAGS_transfer_id FLAGS_protocol_version
         FLAGS_connection_url FLAGS_abort_after_seconds FLAGS_recovery_id
         FLAGS_treat_fewer_port_as_error FLAGS_print_options
         FLAGS_exit_on_bad_flags].
    change (empty EmptyString) with true.
    cbn [negb].
    repeat (cbn; branch); cbn; decode;
      repeat match goal with
        | H : ?x = EmptyString, E : readManifest _ ?x _ = _ |- _ =>
            rewrite H, readManifest_empty in E
        | E : readManifest _ EmptyString _ = _ |- _ =>
            rewrite readManifest_empty in E
        | E : Val _ = Val _ |- _ => injection E as <-
        | E : Val _ = _ |- _ => discriminate E
        end;
      rewrite ?served_passes, ?served_passes_nil
        by (try assumption; try (intro; reflexivity));
      repeat split.
Qed.

(** X17, witness: the manifest file of the sender does not exist. *)
Lemma empty_manifest_is_no_manifest_witness :
  run_outcome sender_with_missing_manifest free_world 0
  = run_outcome sender_by_destination free_world 0.
Proof.
  destruct (empty_manifest_is_no_manifest sender_with_missing_manifest
              free_world 0) as [Hmissing Hsame].
  destruct Hsame as [H _].
  - apply Hmissing; [intros E; discriminate E | reflexivity].
  - exact H.
Defined.

(** * Printing a set *)

Lemma copy_to_ostream_concat (T : Type) (show : T -> string)
    (v : list T) (delimiter : string) :
  forall os,
    copy_to_ostream T show v delimiter os
    = os ++ String.concat EmptyString (map (fun x => show x ++ delimiter) v).
Proof.
  induction v as [|x more IH]; intros os; simpl.
  - symmetry. apply string_app_nil_r.
  - rewrite IH. destruct more as [|y more'].
    + simpl. rewrite string_app_nil_r. reflexivity.
    + rewrite string_app_assoc. reflexivity.
Qed.

Lemma copy_to_ostream_prefix (T : Type) (show : T -> string) (v : list T)
    (delimiter os : string) :
  copy_to_ostream T show v delimiter os
  = os ++ copy_to_ostream T show v delimiter EmptyString.
Proof.
  rewrite (copy_to_ostream_concat T show v delimiter os).
  rewrite (copy_to_ostream_concat T show v delimiter EmptyString).
  reflexivity.
Qed.

Lemma split_pieces_rendered (T : Type) (show : T -> string) (v : list T) :
  Forall (fun x => free_of space (show x) = true) v ->
  split_pieces space (print_set T show EmptyString v)
  = (map show v ++ [EmptyString])%list.
Proof.
  unfold print_set.
  induction 1 as [|x more Hx _ IH]; [reflexivity|].
  simpl. rewrite copy_to_ostream_prefix.
  change (show x ++ " ") with (show x ++ String space EmptyString).
  rewrite string_app_assoc.
  change (String space EmptyString
            ++ copy_to_ostream T show more " " EmptyString)
    with (String space (copy_to_ostream T show more " " EmptyString)).
  rewrite split_pieces_app by exact Hx.
  rewrite IH. reflexivity.
Qed.

(** X18. Printing a set appends each element followed by one space to
    what the stream holds; when no rendering is empty or holds a space,
    cutting the output at the spaces gives the renderings back, in the
    order of the set. *)
Theorem print_set_round_trip (T : Type) (show : T -> string) (v : list T)
    (os : string) :
  print_set T show os v = os ++ print_set T show EmptyString v
  /\ (Forall (fun x => empty (show x) = false
                       /\ free_of space (show x) = true) v ->
      folly_split space (print_set T show EmptyString v) true = map show v).
Proof.
  split.
  - apply copy_to_ostream_prefix.
  - intros H. unfold folly_split.
    rewrite split_pieces_rendered.
    + rewrite filter_app. simpl. rewrite app_nil_r.
      induction H as [|x more [Hx _] _ IH]; [reflexivity|].
      simpl. rewrite Hx. simpl. rewrite IH. reflexivity.
    + eapply Forall_impl; [| exact H]. intros x [_ Hx]. exact Hx.
Qed.

(** X18, witness: a set of three ports. *)
Lemma print_set_round_trip_witness :
  folly_split space
    (print_set string (fun s => s) EmptyString ["22334"; "22335"; "22336"])
    true
  = ["22334"; "22335"; "22336"].
Proof.
  apply (print_set_round_trip string (fun s => s)
           ["22334"; "22335"; "22336"] EmptyString).
  repeat constructor.
Defined.

(** * Flag errors and the error log *)

Lemma handler_calls_continue (F : Flags) (codes : list Z) :
  FLAGS_exit_on_bad_flags F = false ->
  forall bad,
    handler_calls F codes bad
    = Val (match codes with [] => bad | _ :: _ => true end).
Proof.
  intros H. induction codes as [|code more IH]; intros bad; [reflexivity|].
  simpl. unfold gflags_exitfunc. rewrite H. rewrite IH.
  destruct more; reflexivity.
Qed.

(** X19. With exit_on_bad_flags unset, flag errors change nothing of
    the run: whatever calls the flag library makes to the exit handler,
    the run is that of main, and badGflagFound is set exactly when there
    was a call.  With the flag set, the first call ends the process with
    the code handed over, before main has done anything. *)
Theorem flag_errors_and_the_run (F : Flags) (W : World) (codes : list Z)
    (fuel : nat) :
  (FLAGS_exit_on_bad_flags F = false ->
   program F W codes fuel
   = (match codes with [] => false | _ :: _ => true end, main F W fuel))
  /\ (FLAGS_exit_on_bad_flags F = true ->
      program F W codes fuel
      = match codes with
        | [] => (false, main F W fuel)
        | code :: _ => (false, (boot W, Exited code))
        end)
  /\ trace (boot W) = []
  /\ disposition (boot W) = inherited_disposition W.
Proof.
  split; [| split; [| split; reflexivity]].
  - intros H. unfold program. rewrite handler_calls_continue by exact H.
    reflexivity.
  - intros H. unfold program. destruct codes as [|code more]; [reflexivity|].
    simpl. unfold gflags_exitfunc. rewrite H. reflexivity.
Qed.

(** X19, witness: an unknown flag reported with code 1. *)
Lemma flag_errors_and_the_run_witness :
  program default_flags free_world [1] 0 = (false, (boot free_world, Exited 1))
  /\ program (mkFlags false "." EmptyString EmptyString false EmptyString 0
                      EmptyString 0 EmptyString false false false)
             free_world [1] 0
     = (true, main (mkFlags false "." EmptyString EmptyString false EmptyString
                            0 EmptyString 0 EmptyString false false false)
                   free_world 0).
Proof.
  split.
  - apply (proj1 (proj2 (flag_errors_and_the_run default_flags free_world [1]
                           0%nat))).
    reflexivity.
  - apply (proj1 (flag_errors_and_the_run
                    (mkFlags false "." EmptyString EmptyString false
                             EmptyString 0 EmptyString 0 EmptyString false
                             false false)
                    free_world [1] 0%nat)).
    reflexivity.
Defined.

(** X20. In log-parsing mode the error line "Transfer log parsing
    failed" is written exactly when parsing succeeded, that is when the
    exit code is 0; a log that does not parse gives exit code ERROR and no
    error line. *)
Theorem parse_failure_line_on_success (str : ErrorCode -> string)
    (F : Flags) (W : World) (fuel : nat) :
  FLAGS_print_options F = false ->
  FLAGS_parse_transfer_log F = true ->
  (In "Transfer log parsing failed" (error_log str F W false)
   <-> run_outcome F W fuel = Exited 0)
  /\ (run_outcome F W fuel = Exited (errorCodeValue ERROR)
      <-> error_log str F W false = []).
Proof.
  intros Hprint Hparse.
  unfold error_log, run_outcome, main, main_body, boot,
    parseTransferLog, signal, emit, getOptions, putOptions, return_, ret, bind.
  rewrite Hprint, Hparse. cbn.
  destruct (log_parses W (FLAGS_directory F)); cbn; split; split;
    intros H; try reflexivity; try discriminate H.
  - left. reflexivity.
  - destruct H.
Qed.

(** X20, witness: a log that parses. *)
Lemma parse_failure_line_on_success_witness :
  In "Transfer log parsing failed"
     (error_log sample_errorCodeToStr
                (with_parse_transfer_log true default_flags) free_world false).
Proof.
  apply (parse_failure_line_on_success sample_errorCodeToStr
           (with_parse_transfer_log true default_flags) free_world 0
           eq_refl eq_refl).
  reflexivity.
Defined.

(** X21. In transfer mode an error line is written exactly for the
    early returns: a run that exits without having started a transfer
    has written one error line and exits with a code that is not 0, while
    a run that started a transfer, however that ended, or that died
    reading the manifest, has written none. *)
Theorem error_lines_announce_early_returns (str : ErrorCode -> string)
    (F : Flags) (W : World) (fuel : nat) :
  FLAGS_print_options F = false ->
  FLAGS_parse_transfer_log F = false ->
  (existsb is_transfer (run_trace F W fuel) = true
   \/ died (run_outcome F W fuel) = true ->
   error_log str F W false = [])
  /\ (existsb is_transfer (run_trace F W fuel) = false ->
      died (run_outcome F W fuel) = false ->
      exists line code,
        error_log str F W false = [line]
        /\ run_outcome F W fuel = Exited code
        /\ code <> 0).
Proof.
  intros Hprint Hparse. unfold error_log, receiver_request.
  rewrite Hprint, Hparse. split.
  - intros Hgo.
    by_run F W fuel; try discriminate; try manifest_ends; simpl in Hgo;
      rewrite ?existsb_app, ?served_existsb in Hgo
        by (try assumption; try (intro; reflexivity));
      simpl in Hgo; decode; try reflexivity;
      destruct Hgo as [Hgo | Hgo]; discriminate Hgo.
  - intros Hno Halive.
    by_run F W fuel; try discriminate; try manifest_ends; simpl in Hno;
      rewrite ?existsb_app, ?served_existsb in Hno
        by (try assumption; try (intro; reflexivity));
      simpl in Hno; try discriminate Hno; try discriminate Halive; decode;
      (eexists; eexists; split; [reflexivity | split; [reflexivity |]]);
      discriminate.
Qed.

(** X21, witness: the port shortfall treated as an error. *)
Lemma error_lines_announce_early_returns_witness :
  exists line code,
    error_log sample_errorCodeToStr
              (with_treat_fewer_port_as_error true default_flags)
              shortfall_world false
    = [line]
    /\ run_outcome (with_treat_fewer_port_as_error true default_flags)
                   shortfall_world 0
       = Exited code
    /\ code <> 0.
Proof.
  apply (error_lines_announce_early_returns sample_errorCodeToStr
           (with_treat_fewer_port_as_error true default_flags)
           shortfall_world 0); reflexivity.
Defined.

(** * What a run writes and returns *)


(** X23. The Sender transfers the request it was initialised with,
    file list of the manifest included, under the options the flags
    gave, and the process exits with the summary of that transfer. *)
Theorem sender_transfers_its_request (F : Flags) (W : World) (fuel : nat)
    (s : Sender) (summary : ErrorCode) :
  In (EvSenderTransfer s summary) (run_trace F W fuel) ->
  In (EvSenderInit (snd_request s) (sender_init W (snd_request s)))
     (run_trace F W fuel)
  /\ summary = sender_summary W s (flag_options W)
  /\ run_outcome F W fuel = Exited (errorCodeValue summary)
  /\ (empty (FLAGS_manifest F) = false ->
      exists req0,
        readManifest (to_int64 W) (manifest_content F W) req0
        = Val (snd_request s)).
Proof.
  unfold manifest_content. intros Hin.
  by_run F W fuel; in_trace Hin; decode; injection Hin as <- <-;
    (split;
     [simpl; find_event | split; [reflexivity | split; [reflexivity |]]]);
    intros Hm; try congruence; simpl; eexists; eassumption.
Qed.

(** X23, witness: the sender with a manifest on stdin. *)
Lemma sender_transfers_its_request_witness :
  run_outcome sender_with_stdin_manifest manifest_world 0
  = Exited (errorCodeValue OK).
Proof.
  destruct (sender_transfers_its_request sender_with_stdin_manifest
              manifest_world 0 (mkSender sample_manifest_request false) OK)
    as (_ & _ & H & _).
  - vm_compute. do 4 right. left. reflexivity.
  - exact H.
Defined.

(** X24. An exit code of 0 means what it says: outside print_options
    and a daemon that returned, the process exits with 0 only after a log
    that parsed or after a single transfer whose summary is OK. *)
Theorem zero_exit_means_ok (F : Flags) (W : World) (fuel : nat) :
  run_outcome F W fuel = Exited 0 ->
  FLAGS_print_options F = true
  \/ (FLAGS_parse_transfer_log F = true
      /\ log_parses W (FLAGS_directory F) = true)
  \/ reported_summaries (run_trace F W fuel) = [OK]
  \/ (FLAGS_run_as_daemon F = true /\ runForever_result W = OK).
Proof.
  intros Hout.
  by_run F W fuel; try discriminate Hout; try manifest_ends; decode;
    try (left; reflexivity);
    try (right; left; split; reflexivity);
    injection Hout as Hout; apply errorCodeValue_zero in Hout;
    try discriminate Hout;
    first [ right; right; left; simpl;
            rewrite ?served_summaries, ?served_summaries_nil by assumption;
            simpl; rewrite Hout; reflexivity
          | right; right; right; split; assumption ].
Qed.

(** X24, witness. *)
Lemma zero_exit_means_ok_witness :
  FLAGS_print_options default_flags = true
  \/ (FLAGS_parse_transfer_log default_flags = true
      /\ log_parses free_world (FLAGS_directory default_flags) = true)
  \/ reported_summaries (run_trace default_flags free_world 0) = [OK]
  \/ (FLAGS_run_as_daemon default_flags = true
      /\ runForever_result free_world = OK).
Proof.
  apply (zero_exit_means_ok default_flags free_world 0).
  reflexivity.
Defined.
